(** * The membrane namespace registry and its client

    A shallow embedding of [src/membrane/namespace-registry.py] and
    [src/membrane/namespace-client.py].

    Modelling conventions.
    - A Python method that mutates [self], reads the clock, touches the disk or
      the network, or may raise, is a computation in the state-and-exception
      monad [M] below.  The state survives an exception, as object fields do
      in Python, so a [try]/[except] sees the mutations made before the raise.
    - [time.time()] readings are integers (ticks of the clock, one tick per
      second): the code only subtracts two readings and compares the
      difference with an integer multiple of an interval.
    - Field values are taken at the types the dataclass annotations give them.
      The one ill-typed input that is modelled is a request body whose id is
      a list or an object: the store operations raise on it while they hold
      the lock.
    - [logger] calls have no effect on any modelled component and are left out.
    - A dict used as a table is a [gmap]; the order of [dict.values()] is the
      order of [map_to_list]. *)

From Stdlib Require Import ZArith Ascii String List.
From stdpp Require Import base option list gmap strings pretty.

Local Open Scope string_scope.
Local Open Scope Z_scope.
Local Open Scope list_scope.

(** ** Exceptions and the monad *)

Inductive exn :=
| TypeError | KeyError | ValueError | AttributeError
| JSONDecodeError | OSError | URLError | IndexError.

Inductive res (A : Type) :=
| Ok (a : A)
| Raise (e : exn).
Arguments Ok {A} a.
Arguments Raise {A} e.

Definition M (S A : Type) : Type := S -> res A * S.

Section monad.
Context {S : Type}.

Definition ret {A} (a : A) : M S A := fun s => (Ok a, s).

Definition bind {A B} (m : M S A) (k : A -> M S B) : M S B :=
  fun s => match m s with
           | (Ok a, s') => k a s'
           | (Raise e, s') => (Raise e, s')
           end.

Definition raise {A} (e : exn) : M S A := fun s => (Raise e, s).

(** [try: m except Exception as e: h e] *)
Definition try_except {A} (m : M S A) (h : exn -> M S A) : M S A :=
  fun s => match m s with
           | (Ok a, s') => (Ok a, s')
           | (Raise e, s') => h e s'
           end.

(** [try: m finally: f], also the shape of a [with] block. *)
Definition finally {A} (m : M S A) (f : S -> S) : M S A :=
  fun s => let '(r, s') := m s in (r, f s').

Definition gets {A} (f : S -> A) : M S A := fun s => (Ok (f s), s).
Definition modify (f : S -> S) : M S unit := fun s => (Ok tt, f s).

(** [for x in l: body x] *)
Fixpoint for_each {A} (l : list A) (body : A -> M S unit) : M S unit :=
  match l with
  | [] => ret tt
  | x :: l' => bind (body x) (fun _ => for_each l' body)
  end.

Definition when (b : bool) (m : M S unit) : M S unit :=
  if b then m else ret tt.
End monad.

Notation "'let!' x ':=' m 'in' k" := (bind m (fun x => k))
  (at level 10, x name, m at level 100, k at level 200, only parsing).
Notation "m ;;; k" := (bind m (fun _ => k))
  (at level 100, k at level 200, only parsing, right associativity).

Definition time := Z.

(** A JSON value, for the open [metadata] mapping. *)
#[warnings="-register-all"]
Inductive json :=
| JNull
| JBool (b : bool)
| JNum (n : Z)
| JStr (s : string)
| JList (l : list json)
| JDict (d : list (string * json)).

(** A JSON object read as the keyword arguments of the [MembraneInfo] constructor:
    which of the dataclass fields it has, and the keys it has besides.  The
    fields are read at the types the dataclass annotates, so an id is a
    string.  The dataclass itself checks no type: a request body whose
    ["id"] is a list or an object, which no dict takes as a key, is kept
    apart as [UnhashableId] among the bodies of the registry's handlers; an
    id that is a number, a boolean or [null] is left out of this view. *)
Record kwargs := {
  kw_id : option string;
  kw_parent : option (option string);
  kw_endpoint : option string;
  kw_communication_mode : option string;
  kw_health_check_url : option (option string);
  kw_metadata : option (list (string * json));
  kw_registered_at : option time;
  kw_last_heartbeat : option time;
  kw_status : option string;
  kw_other : list string }.

(** The object [{"id": membrane_id}]. *)
Definition id_only (membrane_id : string) : kwargs :=
  {| kw_id := Some membrane_id; kw_parent := None; kw_endpoint := None;
     kw_communication_mode := None; kw_health_check_url := None;
     kw_metadata := None; kw_registered_at := None;
     kw_last_heartbeat := None; kw_status := None; kw_other := [] |}.

(** ** The registry: [namespace-registry.py] *)

Module Registry.

Record MembraneInfo := {
  id : string;
  parent : option string;
  endpoint : string;
  communication_mode : string;
  health_check_url : option string;
  metadata : list (string * json);
  registered_at : time;
  last_heartbeat : time;
  status : string }.

(** The generated [__init__]: every field but [status] is required, and a
    keyword that is not a field is a [TypeError]. *)
Definition MembraneInfo_init (kw : kwargs) : res MembraneInfo :=
  match kw_other kw, kw_id kw, kw_parent kw, kw_endpoint kw,
        kw_communication_mode kw, kw_health_check_url kw, kw_metadata kw,
        kw_registered_at kw, kw_last_heartbeat kw with
  | [], Some i, Some p, Some e, Some c, Some h, Some md, Some r, Some l =>
      Ok {| id := i; parent := p; endpoint := e; communication_mode := c;
            health_check_url := h; metadata := md; registered_at := r;
            last_heartbeat := l;
            status := default "active" (kw_status kw) |}
  | _, _, _, _, _, _, _, _, _ => Raise TypeError
  end.

Definition asdict (m : MembraneInfo) : kwargs :=
  {| kw_id := Some (id m); kw_parent := Some (parent m);
     kw_endpoint := Some (endpoint m);
     kw_communication_mode := Some (communication_mode m);
     kw_health_check_url := Some (health_check_url m);
     kw_metadata := Some (metadata m);
     kw_registered_at := Some (registered_at m);
     kw_last_heartbeat := Some (last_heartbeat m);
     kw_status := Some (status m); kw_other := [] |}.

Definition set_registered_at (t : time) (m : MembraneInfo) : MembraneInfo :=
  {| id := id m; parent := parent m; endpoint := endpoint m;
     communication_mode := communication_mode m;
     health_check_url := health_check_url m; metadata := metadata m;
     registered_at := t; last_heartbeat := last_heartbeat m;
     status := status m |}.

Definition set_last_heartbeat (t : time) (m : MembraneInfo) : MembraneInfo :=
  {| id := id m; parent := parent m; endpoint := endpoint m;
     communication_mode := communication_mode m;
     health_check_url := health_check_url m; metadata := metadata m;
     registered_at := registered_at m; last_heartbeat := t;
     status := status m |}.

Definition set_status (st : string) (m : MembraneInfo) : MembraneInfo :=
  {| id := id m; parent := parent m; endpoint := endpoint m;
     communication_mode := communication_mode m;
     health_check_url := health_check_url m; metadata := metadata m;
     registered_at := registered_at m; last_heartbeat := last_heartbeat m;
     status := st |}.

(** What [registry_state.json] holds.  [json.load] of the file, followed by
    [state.get("membranes", [])], either raises before the first entry is
    looked at ([Unreadable]: not JSON, not an object, membranes not iterable)
    or yields the entries, each an object or some other JSON value.
    [ENotObject] also stands for an object whose ["id"] is a list or an
    object: building a record from it or using its id as a key raises
    [TypeError] before the table is touched, as for a value that is no
    object. *)
Inductive entry :=
| EObject (kw : kwargs)
| ENotObject.

Inductive file_content :=
| NoFile
| Unreadable
| StateDoc (doc_membranes : list entry) (doc_peers : gmap string string)
           (doc_saved_at : option time).

(** How the file system answers the next [open(state_file, 'w')] and
    [json.dump]. *)
Inductive fs_mode :=
| WriteOk
| OpenFails
| DumpFails.

(** What a method does that another thread, the disk or a peer can see. *)
Inductive event :=
| Acquire
| Release
| ReadTable
| WriteTable
| WriteFile
| PeerSend (peer_endpoint action : string) (data : kwargs)
| Sleep (seconds : Z).

Record NamespaceRegistry := {
  registry_id : string;
  port : Z;
  heartbeat_interval : Z;
  cleanup_interval : Z;
  membranes : gmap string MembraneInfo;
  peers : gmap string string;
  running : bool;
  (* the world around the object *)
  state_file : file_content;
  fs : fs_mode;
  clock : nat -> time;
  ticks : nat;
  trace : list event }.

Definition set_membranes (f : gmap string MembraneInfo -> gmap string MembraneInfo)
    (r : NamespaceRegistry) : NamespaceRegistry :=
  {| registry_id := registry_id r; port := port r;
     heartbeat_interval := heartbeat_interval r;
     cleanup_interval := cleanup_interval r;
     membranes := f (membranes r); peers := peers r; running := running r;
     state_file := state_file r; fs := fs r; clock := clock r;
     ticks := ticks r; trace := trace r |}.

Definition set_peers (ps : gmap string string) (r : NamespaceRegistry)
    : NamespaceRegistry :=
  {| registry_id := registry_id r; port := port r;
     heartbeat_interval := heartbeat_interval r;
     cleanup_interval := cleanup_interval r;
     membranes := membranes r; peers := ps; running := running r;
     state_file := state_file r; fs := fs r; clock := clock r;
     ticks := ticks r; trace := trace r |}.

Definition set_running (b : bool) (r : NamespaceRegistry) : NamespaceRegistry :=
  {| registry_id := registry_id r; port := port r;
     heartbeat_interval := heartbeat_interval r;
     cleanup_interval := cleanup_interval r;
     membranes := membranes r; peers := peers r; running := b;
     state_file := state_file r; fs := fs r; clock := clock r;
     ticks := ticks r; trace := trace r |}.

Definition set_state_file (c : file_content) (r : NamespaceRegistry)
    : NamespaceRegistry :=
  {| registry_id := registry_id r; port := port r;
     heartbeat_interval := heartbeat_interval r;
     cleanup_interval := cleanup_interval r;
     membranes := membranes r; peers := peers r; running := running r;
     state_file := c; fs := fs r; clock := clock r;
     ticks := ticks r; trace := trace r |}.

Definition tick (r : NamespaceRegistry) : NamespaceRegistry :=
  {| registry_id := registry_id r; port := port r;
     heartbeat_interval := heartbeat_interval r;
     cleanup_interval := cleanup_interval r;
     membranes := membranes r; peers := peers r; running := running r;
     state_file := state_file r; fs := fs r; clock := clock r;
     ticks := S (ticks r); trace := trace r |}.

Definition record_event (e : event) (r : NamespaceRegistry) : NamespaceRegistry :=
  {| registry_id := registry_id r; port := port r;
     heartbeat_interval := heartbeat_interval r;
     cleanup_interval := cleanup_interval r;
     membranes := membranes r; peers := peers r; running := running r;
     state_file := state_file r; fs := fs r; clock := clock r;
     ticks := ticks r; trace := trace r ++ [e] |}.

Abbreviation Reg := (M NamespaceRegistry).

(** *** Primitives *)

Definition emit (e : event) : Reg unit := modify (record_event e).

(** [time.time()]: the next reading of the clock. *)
Definition time_time : Reg time :=
  fun r => (Ok (clock r (ticks r)), tick r).

(** [time.sleep(d)] raises [ValueError] on a negative length. *)
Definition time_sleep (d : Z) : Reg unit :=
  if d <? 0 then raise ValueError else emit (Sleep d).

(** [with self.lock: body] *)
Definition with_lock {A} (body : Reg A) : Reg A :=
  emit Acquire ;;; finally body (record_event Release).

(** Reads and writes of [self.membranes]. *)
Definition read_membranes : Reg (gmap string MembraneInfo) :=
  emit ReadTable ;;; gets membranes.

Definition write_membranes
    (f : gmap string MembraneInfo -> gmap string MembraneInfo) : Reg unit :=
  emit WriteTable ;;; modify (set_membranes f).

(** [values(d)] is [list(d.values())]. *)
Definition values (d : gmap string MembraneInfo) : list MembraneInfo :=
  (map_to_list d).*2.

(** *** Persistence *)

(** [open(self.state_file, 'w')] followed by [json.dump(state, f)]: opening
    truncates the file, so a dump that fails leaves a file that no longer
    parses. *)
Definition write_state_file (doc : file_content) : Reg unit :=
  fun r => match fs r with
           | WriteOk => (Ok tt, record_event WriteFile (set_state_file doc r))
           | OpenFails => (Raise OSError, r)
           | DumpFails =>
               (Raise OSError, record_event WriteFile (set_state_file Unreadable r))
           end.

Definition snapshot (ms : gmap string MembraneInfo) (ps : gmap string string)
    (t : time) : file_content :=
  StateDoc (EObject <$> (asdict <$> values ms)) ps (Some t).

Definition _save_state : Reg unit :=
  try_except
    (let! ms := read_membranes in
     let! ps := gets peers in
     let! t := time_time in
     write_state_file (snapshot ms ps t))
    (fun _ => ret tt).

Definition load_entry (membrane_data : entry) : Reg unit :=
  match membrane_data with
  | ENotObject => raise TypeError
  | EObject kw =>
      match MembraneInfo_init kw with
      | Ok membrane => write_membranes (insert (id membrane) membrane)
      | Raise e => raise e
      end
  end.

(** The [try] block of [_load_state]. *)
Definition _load_state_try : Reg unit :=
  let! f := gets state_file in
  match f with
  | NoFile => ret tt
  | Unreadable => raise JSONDecodeError
  | StateDoc ms ps _ =>
      for_each ms load_entry ;;;
      modify (set_peers ps)
  end.

Definition _load_state : Reg unit :=
  try_except _load_state_try (fun _ => ret tt).

(** The object [__init__] builds before it loads the state file. *)
Definition blank (registry_id : string)
    (port heartbeat_interval cleanup_interval : Z)
    (disk : file_content) (fs : fs_mode) (clock : nat -> time)
    : NamespaceRegistry :=
  {| registry_id := registry_id; port := port;
     heartbeat_interval := heartbeat_interval;
     cleanup_interval := cleanup_interval;
     membranes := ∅; peers := ∅; running := false;
     state_file := disk; fs := fs; clock := clock; ticks := 0%nat;
     trace := [] |}.

(** [__init__].  [mkdir_ok] says whether creating the state directory
    succeeds; it is called outside any [try]. *)
Definition NamespaceRegistry_init (registry_id : string)
    (port heartbeat_interval cleanup_interval : Z)
    (mkdir_ok : bool) (disk : file_content) (fs : fs_mode) (clock : nat -> time)
    : res unit * NamespaceRegistry :=
  let self :=
    blank registry_id port heartbeat_interval cleanup_interval disk fs clock in
  if mkdir_ok then _load_state self else (Raise OSError, self).

(** *** Peer propagation *)

(** Whether the request reaches the peer is the network's business; the
    caller swallows a failure, so only the attempt is recorded. *)
Definition _send_to_peer (endpoint action : string) (data : kwargs) : Reg unit :=
  emit (PeerSend endpoint action data).

Definition _propagate_to_peers (action : string) (data : kwargs) : Reg unit :=
  let! ps := gets peers in
  for_each (map_to_list ps) (fun '(peer_id, endpoint) =>
    try_except (_send_to_peer endpoint action data) (fun _ => ret tt)).

(** *** The store operations *)

Definition register_membrane (membrane_info : MembraneInfo) : Reg bool :=
  with_lock
    (let! t1 := time_time in
     let membrane_info := set_registered_at t1 membrane_info in
     let! t2 := time_time in
     let membrane_info := set_last_heartbeat t2 membrane_info in
     write_membranes (insert (id membrane_info) membrane_info) ;;;
     _save_state ;;;
     _propagate_to_peers "register" (asdict membrane_info) ;;;
     ret true).

Definition deregister_membrane (membrane_id : string) : Reg bool :=
  with_lock
    (let! ms := read_membranes in
     match ms !! membrane_id with
     | Some _ =>
         write_membranes (delete membrane_id) ;;;
         _save_state ;;;
         _propagate_to_peers "deregister" (id_only membrane_id) ;;;
         ret true
     | None => ret false
     end).

Definition discover_membrane (membrane_id : string) : Reg (option MembraneInfo) :=
  with_lock
    (let! ms := read_membranes in
     ret (ms !! membrane_id)).

Definition list_membranes (parent_filter communication_mode_filter : option string)
    : Reg (list MembraneInfo) :=
  with_lock
    (let! ms := read_membranes in
     let membranes := values ms in
     let membranes :=
       match parent_filter with
       | Some p => filter (fun m => parent m = Some p) membranes
       | None => membranes
       end in
     let membranes :=
       match communication_mode_filter with
       | Some c => filter (fun m => communication_mode m = c) membranes
       | None => membranes
       end in
     ret membranes).

Definition heartbeat (membrane_id : string) : Reg bool :=
  with_lock
    (let! ms := read_membranes in
     match ms !! membrane_id with
     | Some _ =>
         let! t := time_time in
         write_membranes (alter (set_last_heartbeat t) membrane_id) ;;;
         write_membranes (alter (set_status "active") membrane_id) ;;;
         ret true
     | None => ret false
     end).

Definition add_peer_registry (peer_id endpoint : string) : Reg unit :=
  with_lock (fun r => (Ok tt, set_peers (<[peer_id := endpoint]> (peers r)) r)).

Definition stop : Reg unit :=
  modify (set_running false) ;;; _save_state.

(** *** The health sweeper *)

(** [current_time - info.last_heartbeat > self.heartbeat_interval * k] *)
Definition overdue (current_time : time) (interval k : Z) (info : MembraneInfo)
    : bool :=
  bool_decide (current_time - last_heartbeat info > interval * k).

(** The first loop of the sweep: the ids it collects, and the table it
    leaves. *)
Definition stale_ids (current_time : time) (interval : Z)
    (ms : gmap string MembraneInfo) : list string :=
  (filter (fun kv => overdue current_time interval 2 kv.2 = true)
          (map_to_list ms)).*1.

Definition mark_unhealthy (current_time : time) (interval : Z)
    (info : MembraneInfo) : MembraneInfo :=
  if overdue current_time interval 2 info
  then set_status "unhealthy" info else info.

(** The second loop: [del self.membranes[membrane_id]] for the overdue ones. *)
Definition remove_expired (current_time : time) (interval : Z)
    (ms : gmap string MembraneInfo) : gmap string MembraneInfo :=
  filter (fun kv => overdue current_time interval 5 kv.2 = false) ms.

(** The [with self.lock] block of one pass of [_cleanup_worker]. *)
Definition sweep (current_time : time) : Reg unit :=
  with_lock
    (let! interval := gets heartbeat_interval in
     let! ms := read_membranes in
     let stale_membranes := stale_ids current_time interval ms in
     write_membranes (fmap (mark_unhealthy current_time interval)) ;;;
     read_membranes ;;;
     write_membranes (remove_expired current_time interval) ;;;
     when (negb (bool_decide (stale_membranes = []))) _save_state).

(** One pass of the [while self.running] loop. *)
Definition _cleanup_pass : Reg unit :=
  try_except
    (let! d := gets cleanup_interval in
     time_sleep d ;;;
     let! current_time := time_time in
     sweep current_time)
    (fun _ => ret tt).

(** The loop, unrolled at most [fuel] times. *)
Fixpoint _cleanup_worker (fuel : nat) : Reg unit :=
  match fuel with
  | O => ret tt
  | S fuel' =>
      let! go := gets running in
      if go then _cleanup_pass ;;; _cleanup_worker fuel' else ret tt
  end.

(** *** The HTTP handler *)

(** The body of a POST request, as [_read_json] and the handlers read it:
    bytes that are not JSON; a JSON value that is no object; an object with
    the fields of a record; an object with an ["action"] or a ["data"] key
    and no ["id"];
    or an object without those two keys whose ["id"] is a list or an object,
    where [complete] says whether the [MembraneInfo] constructor takes it
    (every other required field is there and no unknown key). *)
Inductive body :=
| NotJson
| NotAnObject
| Fields (kw : kwargs)
| Sync (action : option string) (data : option entry)
| UnhashableId (complete : bool).

Inductive payload :=
| Success (b : bool)
| Membrane (kw : kwargs)
| Membranes (l : list kwargs)
| Status (registry_id : string) (membrane_count peer_count : nat) (uptime : time).

Inductive message :=
| Text (s : string)
| StrOf (e : exn).

Inductive response :=
| SendJson (p : payload)
| SendError (code : Z) (msg : message).

Definition _read_json (b : body) : Reg body :=
  match b with
  | NotJson => raise JSONDecodeError
  | _ => ret b
  end.

(** [data] as the keyword arguments of a call ([_handle_register] treats an
    [UnhashableId] body before it gets here). *)
Definition as_kwargs (data : body) : Reg kwargs :=
  match data with
  | NotJson => raise JSONDecodeError
  | NotAnObject => raise TypeError
  | Fields kw => ret kw
  | Sync action payload =>
      ret {| kw_id := None; kw_parent := None; kw_endpoint := None;
             kw_communication_mode := None; kw_health_check_url := None;
             kw_metadata := None; kw_registered_at := None;
             kw_last_heartbeat := None; kw_status := None;
             kw_other := (if action is Some _ then ["action"] else [])
                         ++ (if payload is Some _ then ["data"] else []) |}
  | UnhashableId _ => raise TypeError
  end.

(** A value handed to the table as a key: a string, or a list or an object,
    which cannot be hashed. *)
Inductive key :=
| Key (membrane_id : string)
| Unhashable.

(** [data["id"]] *)
Definition item_id (data : body) : Reg key :=
  match data with
  | NotJson => raise JSONDecodeError
  | NotAnObject => raise TypeError
  | Fields kw =>
      match kw_id kw with Some i => ret (Key i) | None => raise KeyError end
  | Sync _ _ => raise KeyError
  | UnhashableId _ => ret Unhashable
  end.

(** [register_membrane] given a record whose [id] is a list or an object:
    both stamps are taken, then [self.membranes[membrane_info.id] = ...]
    raises when it hashes the key, and the [with] block releases the lock. *)
Definition register_unhashable : Reg bool :=
  with_lock
    (time_time ;;;
     time_time ;;;
     raise TypeError).

(** [deregister_membrane] and [heartbeat] given a list or an object as id:
    [membrane_id in self.membranes] raises when it hashes the key. *)
Definition lookup_unhashable : Reg bool :=
  with_lock (raise TypeError).

(** [payload["id"]] *)
Definition entry_id (payload : entry) : Reg string :=
  match payload with
  | ENotObject => raise TypeError
  | EObject kw => match kw_id kw with Some i => ret i | None => raise KeyError end
  end.

Definition construct (kw : kwargs) : Reg MembraneInfo :=
  fun r => (MembraneInfo_init kw, r).

Definition _handle_register (b : body) : Reg response :=
  try_except
    (let! data := _read_json b in
     let! success :=
       match data with
       | UnhashableId complete =>
           (if complete then ret tt else raise TypeError) ;;;
           register_unhashable
       | _ =>
           let! kw := as_kwargs data in
           let! membrane := construct kw in
           register_membrane membrane
       end in
     ret (SendJson (Success success)))
    (fun e => ret (SendError 400 (StrOf e))).

Definition _handle_deregister (b : body) : Reg response :=
  try_except
    (let! data := _read_json b in
     let! k := item_id data in
     let! success :=
       match k with
       | Key i => deregister_membrane i
       | Unhashable => lookup_unhashable
       end in
     ret (SendJson (Success success)))
    (fun e => ret (SendError 400 (StrOf e))).

Definition _handle_heartbeat (b : body) : Reg response :=
  try_except
    (let! data := _read_json b in
     let! k := item_id data in
     let! success :=
       match k with
       | Key i => heartbeat i
       | Unhashable => lookup_unhashable
       end in
     ret (SendJson (Success success)))
    (fun e => ret (SendError 400 (StrOf e))).

Definition _handle_peer_sync (b : body) : Reg response :=
  try_except
    (let! data := _read_json b in
     match data with
     | NotJson => raise JSONDecodeError
     | NotAnObject => raise TypeError
     | Fields _ | UnhashableId _ | Sync None _ | Sync (Some _) None =>
         raise KeyError
     | Sync (Some action) (Some payload) =>
         (if bool_decide (action = "register") then
            match payload with
            | ENotObject => raise TypeError
            | EObject kw =>
                let! membrane := construct kw in
                write_membranes (insert (id membrane) membrane)
            end
          else if bool_decide (action = "deregister") then
            let! membrane_id := entry_id payload in
            write_membranes (delete membrane_id)
          else ret tt) ;;;
         ret (SendJson (Success true))
     end)
    (fun e => ret (SendError 400 (StrOf e))).

Definition _handle_discover (membrane_id : string) : Reg response :=
  try_except
    (let! membrane := discover_membrane membrane_id in
     match membrane with
     | Some m => ret (SendJson (Membrane (asdict m)))
     | None => ret (SendError 404 (Text "Membrane not found"))
     end)
    (fun e => ret (SendError 500 (StrOf e))).

(** [registry.membranes] and [registry.peers] are read directly. *)
Definition _handle_status : Reg response :=
  try_except
    (let! rid := gets registry_id in
     let! ms := read_membranes in
     let! ps := gets peers in
     let! now := time_time in
     let! fallback := time_time in
     let! ms' := read_membranes in
     let started :=
       match ms' !! rid with
       | Some m => registered_at m
       | None => fallback
       end in
     ret (SendJson (Status rid (size ms) (size ps) (now - started))))
    (fun e => ret (SendError 500 (StrOf e))).

(** String helpers for [self.path]. *)

(** [c in s] *)
Fixpoint contains (c : ascii) (s : string) : bool :=
  match s with
  | EmptyString => false
  | String a s' => if Ascii.eqb a c then true else contains c s'
  end.

(** [s.split(c, 1)[1]], for [s] that contains [c] *)
Fixpoint after_first (c : ascii) (s : string) : string :=
  match s with
  | EmptyString => EmptyString
  | String a s' => if Ascii.eqb a c then s' else after_first c s'
  end.

(** [s.split(c)[-1]] *)
Fixpoint last_segment (c : ascii) (s : string) : string :=
  match s with
  | EmptyString => EmptyString
  | String a s' =>
      if contains c s' then last_segment c s'
      else if Ascii.eqb a c then s' else s
  end.

Section handler.
(** [urllib.parse.parse_qs] *)
Variable parse_qs : string -> gmap string (list string).

(** [query.get(key, [None])[0]] *)
Definition first_value (query : gmap string (list string)) (key : string)
    : Reg (option string) :=
  match query !! key with
  | None => ret None
  | Some [] => raise IndexError
  | Some (v :: _) => ret (Some v)
  end.

Definition _handle_list (path : string) : Reg response :=
  try_except
    (let query :=
       parse_qs (if contains "?" path then after_first "?" path else "") in
     let! parent := first_value query "parent" in
     let! comm_mode := first_value query "communication_mode" in
     let! membranes := list_membranes parent comm_mode in
     ret (SendJson (Membranes (asdict <$> membranes))))
    (fun e => ret (SendError 500 (StrOf e))).

Definition do_GET (path : string) : Reg response :=
  if bool_decide (path = "/status") then _handle_status
  else if String.prefix "/discover/" path then
    _handle_discover (last_segment "/" path)
  else if bool_decide (path = "/list") then _handle_list path
  else ret (SendError 404 (Text "Not Found")).
End handler.

Definition do_POST (path : string) (b : body) : Reg response :=
  if bool_decide (path = "/register") then _handle_register b
  else if bool_decide (path = "/deregister") then _handle_deregister b
  else if bool_decide (path = "/heartbeat") then _handle_heartbeat b
  else if bool_decide (path = "/peer-sync") then _handle_peer_sync b
  else ret (SendError 404 (Text "Not Found")).

(** *** Notions the properties are stated with *)

(** The events an operation adds to the trace. *)
Definition new_events (before after : NamespaceRegistry) : list event :=
  drop (length (trace before)) (trace after).

(** Lock discipline of a trace fragment: every access to the table happens
    while the lock is held ([depth] counts the holds of the reentrant lock). *)
Fixpoint guarded (depth : nat) (tr : list event) : bool :=
  match tr with
  | [] => true
  | Acquire :: tr' => guarded (S depth) tr'
  | Release :: tr' => guarded (pred depth) tr'
  | ReadTable :: tr' | WriteTable :: tr' =>
      negb (Nat.eqb depth 0) && guarded depth tr'
  | _ :: tr' => guarded depth tr'
  end.

(** Every record sits under its own id. *)
Definition keyed_by_id (ms : gmap string MembraneInfo) : Prop :=
  forall k m, ms !! k = Some m -> id m = k.

(** The filters of [list_membranes]. *)
Definition matches (p c : option string) (m : MembraneInfo) : Prop :=
  (forall p', p = Some p' -> parent m = Some p')
  /\ (forall c', c = Some c' -> communication_mode m = c').

(** Events that neither touch the lock nor the table. *)
Definition quiet (e : event) : Prop :=
  match e with
  | Acquire | Release | ReadTable | WriteTable => False
  | _ => True
  end.

(** A run of [register] calls, one after the other. *)
Definition register_all (calls : list MembraneInfo) : Reg unit :=
  for_each calls (fun m => register_membrane m ;;; ret tt).

(** What [register_membrane] stores for a call made at reading [n] of the
    clock. *)
Definition stamped (clock : nat -> time) (n : nat) (m : MembraneInfo)
    : MembraneInfo :=
  set_last_heartbeat (clock (S n)) (set_registered_at (clock n) m).

(** The table [_load_state] builds from the entries of a file: it stops at
    the first entry that does not construct. *)
Fixpoint load_prefix (es : list entry) (ms : gmap string MembraneInfo)
    : gmap string MembraneInfo :=
  match es with
  | EObject kw :: es' =>
      match MembraneInfo_init kw with
      | Ok m => load_prefix es' (<[id m := m]> ms)
      | Raise _ => ms
      end
  | _ => ms
  end.

Definition loadable (e : entry) : bool :=
  match e with
  | EObject kw => if MembraneInfo_init kw is Ok _ then true else false
  | ENotObject => false
  end.

(** *** State transformers of the sub-operations *)

Definition add_events (evs : list event) (r : NamespaceRegistry)
    : NamespaceRegistry :=
  foldl (fun r e => record_event e r) r evs.

Definition saved (r : NamespaceRegistry) : NamespaceRegistry :=
  (_save_state r).2.

(** The requests [_propagate_to_peers] sends. *)
Definition sends (action : string) (data : kwargs)
    (ps : list (string * string)) : list event :=
  (fun p => PeerSend p.2 action data) <$> ps.

Definition propagated (action : string) (data : kwargs) (r : NamespaceRegistry)
    : NamespaceRegistry :=
  add_events (sends action data (map_to_list (peers r))) r.


(** The state [sweep] leaves, lock events apart. *)
Definition swept (current_time : time) (r : NamespaceRegistry)
    : NamespaceRegistry :=
  let interval := heartbeat_interval r in
  let r1 := record_event ReadTable r in
  let r2 := set_membranes (fmap (mark_unhealthy current_time interval))
              (record_event WriteTable r1) in
  let r3 := set_membranes (remove_expired current_time interval)
              (record_event WriteTable (record_event ReadTable r2)) in
  if bool_decide (stale_ids current_time interval (membranes r) = [])
  then r3 else saved r3.

(** *** Sample inputs *)

Definition m1 : MembraneInfo :=
  {| id := "m1"; parent := Some "root"; endpoint := "http://localhost:9100";
     communication_mode := "network"; health_check_url := None;
     metadata := []; registered_at := 0; last_heartbeat := 0;
     status := "active" |}.

Definition m2 : MembraneInfo :=
  {| id := "m2"; parent := None; endpoint := "/opt/membrane/communication/inbox/m2";
     communication_mode := "shared-volume"; health_check_url := None;
     metadata := []; registered_at := 7; last_heartbeat := 7;
     status := "active" |}.

(** A record whose id is the empty string. *)
Definition anonymous : MembraneInfo :=
  {| id := ""; parent := None; endpoint := "/tmp/x";
     communication_mode := "ipc"; health_check_url := None;
     metadata := []; registered_at := 0; last_heartbeat := 0;
     status := "active" |}.

(** A registry with the default intervals (30 s and 60 s), a working disk
    with no state file, one peer, and a clock that reads [100 + n] at its
    [n]-th reading. *)
Definition fresh : NamespaceRegistry :=
  {| registry_id := "default"; port := 8765; heartbeat_interval := 30;
     cleanup_interval := 60; membranes := ∅;
     peers := {[ "b" := "http://b:8765" ]}; running := true;
     state_file := NoFile; fs := WriteOk;
     clock := fun n => 100 + Z.of_nat n; ticks := 0%nat; trace := [] |}.

(** [fresh] holding [m1], last heard of at time 0. *)
Definition with_m1 : NamespaceRegistry :=
  set_membranes (insert "m1" m1) fresh.


(** Whether [_handle_register] gets a record out of a body. *)
Definition accepted (b : body) : option MembraneInfo :=
  match b with
  | Fields kw => if MembraneInfo_init kw is Ok m then Some m else None
  | _ => None
  end.

(** [True] or [False] by whether [membrane_id in self.membranes]. *)
Definition known (ms : gmap string MembraneInfo) (membrane_id : string) : bool :=
  if ms !! membrane_id is Some _ then true else false.

(** A state file whose second entry is not an object. *)
Definition half_good : file_content :=
  StateDoc [EObject (asdict m1); ENotObject; EObject (asdict m2)] ∅ (Some 5).

(** The registry about to load [half_good]. *)
Definition booting : NamespaceRegistry :=
  blank "default" 8765 30 60 half_good WriteOk (fun n => 100 + Z.of_nat n).

(** Events that tell a peer or write the state file. *)
Definition outward (e : event) : Prop :=
  match e with
  | PeerSend _ _ _ | WriteFile => True
  | _ => False
  end.

End Registry.

(** ** The client: [namespace-client.py] *)

Module Client.

Record MembraneEndpoint := {
  id : string;
  endpoint : string;
  communication_mode : string;
  metadata : list (string * json);
  last_seen : time }.

(** A JSON document in an HTTP reply, as the client reads it: an object with
    its [success] key, if any, and its other keys read as a record's;
    an array of objects; any other JSON value ([Other]); or bytes that are
    not JSON ([Invalid]).  A method that tests or indexes an [Other] value
    ends the same way whether the value is falsy or indexing it raises. *)
Inductive document :=
| Object (success : option bool) (fields : kwargs)
| Array (items : list kwargs)
| Other
| Invalid.

(** What the network does with the next request. *)
Inductive reply :=
| Fails (e : exn)
| Http (status : Z) (doc : document).

Inductive event :=
| SetRunning (b : bool)
| StartThread
| Join (timeout : Z)
| Post (url : string) (data : kwargs)
| Get (url : string)
| Sleep (seconds : Z)
| MakeDirs (path : string)
| WriteMessage (path sender : string) (timestamp : time) (payload : json)
| PostMessage (url sender : string) (timestamp : time) (payload : json).

Record NamespaceClient := {
  membrane_id : string;
  registry_url : string;
  auto_heartbeat : bool;
  heartbeat_interval : Z;
  heartbeat_thread : bool;      (* [None], or a Thread object *)
  heartbeat_running : bool;
  membrane_cache : gmap string MembraneEndpoint;
  cache_ttl : Z;
  (* the world around the object *)
  network : nat -> reply;
  requests : nat;
  disk_ok : bool;
  clock : nat -> time;
  ticks : nat;
  trace : list event }.

Definition set_heartbeat_thread (b : bool) (c : NamespaceClient) : NamespaceClient :=
  {| membrane_id := membrane_id c; registry_url := registry_url c;
     auto_heartbeat := auto_heartbeat c;
     heartbeat_interval := heartbeat_interval c;
     heartbeat_thread := b; heartbeat_running := heartbeat_running c;
     membrane_cache := membrane_cache c; cache_ttl := cache_ttl c;
     network := network c; requests := requests c; disk_ok := disk_ok c;
     clock := clock c; ticks := ticks c; trace := trace c |}.

Definition record_event (e : event) (c : NamespaceClient) : NamespaceClient :=
  {| membrane_id := membrane_id c; registry_url := registry_url c;
     auto_heartbeat := auto_heartbeat c;
     heartbeat_interval := heartbeat_interval c;
     heartbeat_thread := heartbeat_thread c;
     heartbeat_running := heartbeat_running c;
     membrane_cache := membrane_cache c; cache_ttl := cache_ttl c;
     network := network c; requests := requests c; disk_ok := disk_ok c;
     clock := clock c; ticks := ticks c; trace := trace c ++ [e] |}.

(** [self.heartbeat_running = b]: the worker thread reads this flag. *)
Definition set_heartbeat_running (b : bool) (c : NamespaceClient) : NamespaceClient :=
  {| membrane_id := membrane_id c; registry_url := registry_url c;
     auto_heartbeat := auto_heartbeat c;
     heartbeat_interval := heartbeat_interval c;
     heartbeat_thread := heartbeat_thread c; heartbeat_running := b;
     membrane_cache := membrane_cache c; cache_ttl := cache_ttl c;
     network := network c; requests := requests c; disk_ok := disk_ok c;
     clock := clock c; ticks := ticks c;
     trace := trace c ++ [SetRunning b] |}.

Definition set_membrane_cache
    (f : gmap string MembraneEndpoint -> gmap string MembraneEndpoint)
    (c : NamespaceClient) : NamespaceClient :=
  {| membrane_id := membrane_id c; registry_url := registry_url c;
     auto_heartbeat := auto_heartbeat c;
     heartbeat_interval := heartbeat_interval c;
     heartbeat_thread := heartbeat_thread c;
     heartbeat_running := heartbeat_running c;
     membrane_cache := f (membrane_cache c); cache_ttl := cache_ttl c;
     network := network c; requests := requests c; disk_ok := disk_ok c;
     clock := clock c; ticks := ticks c; trace := trace c |}.

Definition tick (c : NamespaceClient) : NamespaceClient :=
  {| membrane_id := membrane_id c; registry_url := registry_url c;
     auto_heartbeat := auto_heartbeat c;
     heartbeat_interval := heartbeat_interval c;
     heartbeat_thread := heartbeat_thread c;
     heartbeat_running := heartbeat_running c;
     membrane_cache := membrane_cache c; cache_ttl := cache_ttl c;
     network := network c; requests := requests c; disk_ok := disk_ok c;
     clock := clock c; ticks := S (ticks c); trace := trace c |}.

Definition next_request (c : NamespaceClient) : NamespaceClient :=
  {| membrane_id := membrane_id c; registry_url := registry_url c;
     auto_heartbeat := auto_heartbeat c;
     heartbeat_interval := heartbeat_interval c;
     heartbeat_thread := heartbeat_thread c;
     heartbeat_running := heartbeat_running c;
     membrane_cache := membrane_cache c; cache_ttl := cache_ttl c;
     network := network c; requests := S (requests c); disk_ok := disk_ok c;
     clock := clock c; ticks := ticks c; trace := trace c |}.

Abbreviation Cli := (M NamespaceClient).

(** *** Primitives *)

Definition emit (e : event) : Cli unit := modify (record_event e).

Definition time_time : Cli time :=
  fun c => (Ok (clock c (ticks c)), tick c).

Definition time_sleep (d : Z) : Cli unit :=
  if d <? 0 then raise ValueError else emit (Sleep d).

(** [urllib.request.urlopen]: a transport failure raises, and so does a
    status outside 2xx. *)
Definition urlopen : Cli (Z * document) :=
  fun c => match network c (requests c) with
           | Fails e => (Raise e, next_request c)
           | Http status doc =>
               if bool_decide (200 <= status < 300)
               then (Ok (status, doc), next_request c)
               else (Raise URLError, next_request c)
           end.

(** [json.loads(response.read().decode())] *)
Definition json_loads (doc : document) : Cli document :=
  match doc with
  | Invalid => raise JSONDecodeError
  | _ => ret doc
  end.

Definition _post (path : string) (data : kwargs) : Cli document :=
  let! url := gets (fun c => registry_url c +:+ path) in
  emit (Post url data) ;;;
  let! r := urlopen in
  json_loads r.2.

Definition _get (path : string) : Cli document :=
  let! url := gets (fun c => registry_url c +:+ path) in
  emit (Get url) ;;;
  let! r := urlopen in
  json_loads r.2.

(** [response.get("success", False)] *)
Definition get_success (response : document) : Cli bool :=
  match response with
  | Object success _ => ret (default false success)
  | _ => raise AttributeError
  end.

(** [s.rstrip(c)] *)
Fixpoint rstrip (c : ascii) (s : string) : string :=
  match s with
  | EmptyString => EmptyString
  | String a s' =>
      match rstrip c s' with
      | EmptyString => if Ascii.eqb a c then EmptyString else String a EmptyString
      | t => String a t
      end
  end.

Definition NamespaceClient_init (membrane_id registry_url : string)
    (auto_heartbeat : bool) (heartbeat_interval : Z)
    (network : nat -> reply) (disk_ok : bool) (clock : nat -> time)
    : NamespaceClient :=
  {| membrane_id := membrane_id; registry_url := rstrip "/" registry_url;
     auto_heartbeat := auto_heartbeat;
     heartbeat_interval := heartbeat_interval;
     heartbeat_thread := false; heartbeat_running := false;
     membrane_cache := ∅; cache_ttl := 60;
     network := network; requests := 0%nat; disk_ok := disk_ok;
     clock := clock; ticks := 0%nat; trace := [] |}.

(** *** Heartbeats *)

Definition heartbeat : Cli bool :=
  try_except
    (let! mid := gets membrane_id in
     let! response := _post "/heartbeat" (id_only mid) in
     get_success response)
    (fun _ => ret false).

(** One pass of the [while self.heartbeat_running] loop. *)
Definition _heartbeat_pass : Cli unit :=
  try_except
    (heartbeat ;;;
     let! d := gets heartbeat_interval in
     time_sleep d)
    (fun _ => time_sleep 5).

(** The loop, unrolled at most [fuel] times. *)
Fixpoint _heartbeat_worker (fuel : nat) : Cli unit :=
  match fuel with
  | O => ret tt
  | S fuel' =>
      let! go := gets heartbeat_running in
      if go then _heartbeat_pass ;;; _heartbeat_worker fuel' else ret tt
  end.

Definition _start_heartbeat : Cli unit :=
  let! on := gets heartbeat_running in
  if on then ret tt
  else
    modify (set_heartbeat_running true) ;;;
    modify (set_heartbeat_thread true) ;;;
    emit StartThread.

Definition _stop_heartbeat : Cli unit :=
  modify (set_heartbeat_running false) ;;;
  let! th := gets heartbeat_thread in
  when th (emit (Join 1)).

(** *** Registration *)

Section hashing.
(** The interpreter's [hash] on [str], as this process computes it. *)
Variable hash : string -> Z.

(** Python's [%] with a positive modulus rounds like [mod] on [Z]: the
    result is never negative. *)
Definition _auto_detect_endpoint (communication_mode : string) : Cli string :=
  let! mid := gets membrane_id in
  if bool_decide (communication_mode = "shared-volume") then
    ret ("/opt/membrane/communication/inbox/" +:+ mid)
  else if bool_decide (communication_mode = "network") then
    let port := 9000 + (hash mid `mod` 1000) in
    ret ("http://localhost:" +:+ pretty port)
  else if bool_decide (communication_mode = "ipc") then
    ret ("/tmp/membrane_" +:+ mid +:+ ".sock")
  else
    ret ("/opt/membrane/communication/inbox/" +:+ mid).

Definition register (parent endpoint : option string)
    (communication_mode : string) (metadata : option (list (string * json)))
    : Cli bool :=
  try_except
    (let! endpoint :=
       match endpoint with
       | None => _auto_detect_endpoint communication_mode
       | Some e => ret e
       end in
     let! mid := gets membrane_id in
     let! t1 := time_time in
     let! t2 := time_time in
     let registration_data :=
       {| kw_id := Some mid; kw_parent := Some parent;
          kw_endpoint := Some endpoint;
          kw_communication_mode := Some communication_mode;
          kw_health_check_url := Some None;
          kw_metadata := Some (default [] metadata);
          kw_registered_at := Some t1; kw_last_heartbeat := Some t2;
          kw_status := None; kw_other := [] |} in
     let! response := _post "/register" registration_data in
     let! success := get_success response in
     (if success then
        let! auto := gets auto_heartbeat in
        when auto _start_heartbeat
      else ret tt) ;;;
     ret success)
    (fun _ => ret false).
End hashing.

Definition deregister : Cli bool :=
  try_except
    (_stop_heartbeat ;;;
     let! mid := gets membrane_id in
     let! response := _post "/deregister" (id_only mid) in
     get_success response)
    (fun _ => ret false).

(** *** Discovery *)

(** [response["id"]], [response["endpoint"]], [response["communication_mode"]]
    and [response.get("metadata", {})], stamped with the time of the read. *)
Definition endpoint_of (fields : kwargs) : Cli MembraneEndpoint :=
  match kw_id fields, kw_endpoint fields, kw_communication_mode fields with
  | Some i, Some e, Some c =>
      let! now := time_time in
      ret {| id := i; endpoint := e; communication_mode := c;
             metadata := default [] (kw_metadata fields); last_seen := now |}
  | _, _, _ => raise KeyError
  end.

(** Whether a JSON object has no key at all. *)
Definition empty_object (success : option bool) (kw : kwargs) : bool :=
  match success, kw_id kw, kw_parent kw, kw_endpoint kw,
        kw_communication_mode kw, kw_health_check_url kw, kw_metadata kw,
        kw_registered_at kw, kw_last_heartbeat kw, kw_status kw, kw_other kw with
  | None, None, None, None, None, None, None, None, None, None, [] => true
  | _, _, _, _, _, _, _, _, _, _, _ => false
  end.

Definition discover (target_membrane_id : string) (use_cache : bool)
    : Cli (option MembraneEndpoint) :=
  try_except
    (let! cache := gets membrane_cache in
     let! ttl := gets cache_ttl in
     let! hit :=
       match (if use_cache then cache !! target_membrane_id else None) with
       | Some cached =>
           let! now := time_time in
           ret (if bool_decide (now - last_seen cached < ttl)
                then Some cached else None)
       | None => ret None
       end in
     match hit with
     | Some cached => ret (Some cached)
     | None =>
         let! response := _get ("/discover/" +:+ target_membrane_id) in
         match response with
         | Object success fields =>
             if empty_object success fields then ret None
             else
               let! endpoint := endpoint_of fields in
               modify (set_membrane_cache (insert target_membrane_id endpoint)) ;;;
               ret (Some endpoint)
         | Array [] => ret None
         | Array (_ :: _) => raise TypeError
         | Other => ret None
         | Invalid => raise JSONDecodeError
         end
     end)
    (fun _ => ret None).

(** The loop of [list_membranes] over the array in the reply. *)
Fixpoint collect (items : list kwargs) (endpoints : list MembraneEndpoint)
    : Cli (list MembraneEndpoint) :=
  match items with
  | [] => ret endpoints
  | membrane_data :: rest =>
      let! endpoint := endpoint_of membrane_data in
      modify (set_membrane_cache (insert (id endpoint) endpoint)) ;;;
      collect rest (endpoints ++ [endpoint])
  end.

Section listing.
(** [urllib.parse.urlencode] *)
Variable urlencode : list (string * string) -> string.

Definition list_membranes (parent communication_mode : option string)
    : Cli (list MembraneEndpoint) :=
  try_except
    (let params :=
       ((if parent is Some p then [("parent", p)] else [])
        ++ (if communication_mode is Some c
            then [("communication_mode", c)] else []))%list in
     let query_string := urlencode params in
     let url :=
       if bool_decide (query_string = "") then "/list"
       else "/list?" +:+ query_string in
     let! response := _get url in
     match response with
     | Array items => collect items []
     | Object success fields =>
         if empty_object success fields then ret [] else raise TypeError
     | Other => ret []
     | Invalid => raise JSONDecodeError
     end)
    (fun _ => ret []).
End listing.

(** *** Sending *)

(** [disk_ok] says whether the file system lets the client create the
    target directory and the message file. *)
Definition _send_shared_volume (target : MembraneEndpoint) (message : json)
    : Cli bool :=
  try_except
    (let target_dir := endpoint target in
     let! ok := gets disk_ok in
     (if ok then emit (MakeDirs target_dir) else raise OSError) ;;;
     let! mid := gets membrane_id in
     let! t1 := time_time in
     let message_file :=
       target_dir +:+ "/msg_" +:+ mid +:+ "_" +:+ pretty (t1 * 1000) +:+ ".json" in
     let! t2 := time_time in
     emit (WriteMessage message_file mid t2 message) ;;;
     ret true)
    (fun _ => ret false).

Definition _send_network (target : MembraneEndpoint) (message : json)
    : Cli bool :=
  try_except
    (let! mid := gets membrane_id in
     let! t := time_time in
     emit (PostMessage (endpoint target +:+ "/message") mid t message) ;;;
     let! response := urlopen in
     ret (bool_decide (response.1 = 200)))
    (fun _ => ret false).

Definition _send_ipc (target : MembraneEndpoint) (message : json) : Cli bool :=
  ret false.

Definition send_message (target_membrane_id : string) (message : json)
    : Cli bool :=
  try_except
    (let! found := discover target_membrane_id true in
     match found with
     | None => ret false
     | Some target =>
         if bool_decide (communication_mode target = "shared-volume") then
           _send_shared_volume target message
         else if bool_decide (communication_mode target = "network") then
           _send_network target message
         else if bool_decide (communication_mode target = "ipc") then
           _send_ipc target message
         else ret false
     end)
    (fun _ => ret false).

(** *** Notions the properties are stated with *)

(** The events an operation adds to the trace. *)
Definition new_events (before after : NamespaceClient) : list event :=
  drop (length (trace before)) (trace after).

(** An operation that leaves [heartbeat_running] as it found it. *)
Definition keeps_flag {A} (m : Cli A) : Prop :=
  forall c, heartbeat_running (m c).2 = heartbeat_running c.

(** What [_post] followed by [response.get("success", False)] makes of the
    reply to the request: the value, or the exception. *)
Definition post_outcome (r : reply) : res bool :=
  match r with
  | Fails e => Raise e
  | Http status doc =>
      if bool_decide (200 <= status < 300) then
        match doc with
        | Object success _ => Ok (default false success)
        | Invalid => Raise JSONDecodeError
        | _ => Raise AttributeError
        end
      else Raise URLError
  end.

(** The state after a POST to the registry. *)
Definition posted (path : string) (data : kwargs) (c : NamespaceClient)
    : NamespaceClient :=
  next_request (record_event (Post (registry_url c +:+ path) data) c).

(** The string [_auto_detect_endpoint] returns for a membrane id, under the
    string hash [hash] of the running interpreter. *)
Definition default_endpoint (hash : string -> Z) (mid communication_mode : string)
    : string :=
  if bool_decide (communication_mode = "shared-volume") then
    "/opt/membrane/communication/inbox/" +:+ mid
  else if bool_decide (communication_mode = "network") then
    "http://localhost:" +:+ pretty (9000 + (hash mid `mod` 1000))
  else if bool_decide (communication_mode = "ipc") then
    "/tmp/membrane_" +:+ mid +:+ ".sock"
  else "/opt/membrane/communication/inbox/" +:+ mid.

(** The body of the request [register] posts. *)
Definition registration_data (hash : string -> Z) (c : NamespaceClient)
    (parent endpoint : option string) (communication_mode : string)
    (metadata : option (list (string * json))) : kwargs :=
  {| kw_id := Some (membrane_id c); kw_parent := Some parent;
     kw_endpoint :=
       Some (default (default_endpoint hash (membrane_id c) communication_mode)
                     endpoint);
     kw_communication_mode := Some communication_mode;
     kw_health_check_url := Some None;
     kw_metadata := Some (default [] metadata);
     kw_registered_at := Some (clock c (ticks c));
     kw_last_heartbeat := Some (clock c (S (ticks c)));
     kw_status := None; kw_other := [] |}.

(** The value a method returns for the outcome of its request. *)
Definition or_false (r : res bool) : bool :=
  match r with
  | Ok b => b
  | Raise _ => false
  end.

(** The state [_stop_heartbeat] leaves. *)
Definition stopped (c : NamespaceClient) : NamespaceClient :=
  let c' := set_heartbeat_running false c in
  if heartbeat_thread c then record_event (Join 1) c' else c'.

(** The state [_start_heartbeat] leaves. *)
Definition started (c : NamespaceClient) : NamespaceClient :=
  if heartbeat_running c then c
  else record_event StartThread
         (set_heartbeat_thread true (set_heartbeat_running true c)).

(** What can happen to a client: a call of one of its public methods, or
    the background thread getting to run its loop for a while. *)
Inductive call :=
| Register (parent endpoint : option string) (communication_mode : string)
           (metadata : option (list (string * json)))
| Deregister
| Discover (target_membrane_id : string) (use_cache : bool)
| ListMembranes (parent communication_mode : option string)
| SendMessage (target_membrane_id : string) (message : json)
| Heartbeat
| Worker (fuel : nat).

Section calls.
Variable hash : string -> Z.
Variable urlencode : list (string * string) -> string.

Definition perform (op : call) (c : NamespaceClient) : NamespaceClient :=
  match op with
  | Register p e m md => (register hash p e m md c).2
  | Deregister => (deregister c).2
  | Discover t u => (discover t u c).2
  | ListMembranes p m => (list_membranes urlencode p m c).2
  | SendMessage t msg => (send_message t msg c).2
  | Heartbeat => (heartbeat c).2
  | Worker fuel => (_heartbeat_worker fuel c).2
  end.

(** Whether [op] is a [register] that returns [True]. *)
Definition registers (op : call) (c : NamespaceClient) : bool :=
  match op with
  | Register p e m md =>
      if (register hash p e m md c).1 is Ok true then true else false
  | _ => false
  end.

Fixpoint perform_all (ops : list call) (c : NamespaceClient)
    : NamespaceClient :=
  match ops with
  | [] => c
  | op :: ops' => perform_all ops' (perform op c)
  end.

(** Whether some [register] in the run returns [True]. *)
Fixpoint some_register_succeeds (ops : list call) (c : NamespaceClient)
    : bool :=
  match ops with
  | [] => false
  | op :: ops' =>
      registers op c || some_register_succeeds ops' (perform op c)
  end.
End calls.

(** *** Sample inputs *)

(** A client with the default settings whose registry cannot be reached. *)
Definition unreachable : NamespaceClient :=
  NamespaceClient_init "m1" "http://localhost:8765/" true 25
    (fun _ => Fails URLError) true (fun n => 100 + Z.of_nat n).

(** The string hash of two runs of the interpreter, as CPython 3.11 (64
    bit, siphash13) computes it when started with [PYTHONHASHSEED=1] and with
    [PYTHONHASHSEED=2], at the ids used below.  The empty string hashes to 0
    in every run; the tables give 0 to the strings they do not list. *)
Definition hash_of_run_a : string -> Z := fun s =>
  if bool_decide (s = "m1") then -763461436221337602
  else if bool_decide (s = "m2") then -5379662747567472331
  else if bool_decide (s = "unknown") then 290020558125099089
  else 0.

Definition hash_of_run_b : string -> Z := fun s =>
  if bool_decide (s = "m1") then -7538108114920455163
  else if bool_decide (s = "m2") then -1039490767176884007
  else if bool_decide (s = "unknown") then -7411489811551956477
  else 0.

(** *** The factory *)

(** What [/opt/membrane/config/membrane.json] gives: nothing that can be
    read as an object, or an object with or without an ["id"]. *)
Inductive config_file :=
| NoConfig
| Config (config_id : option string).

(** [create_namespace_client].  [environ] is [os.environ]; an [id] or a URL
    given in the call is [Some]. *)
Definition create_namespace_client (environ : gmap string string)
    (config : config_file) (membrane_id registry_url : option string)
    (network : nat -> reply) (disk_ok : bool) (clock : nat -> time)
    : NamespaceClient :=
  let membrane_id :=
    match membrane_id with
    | Some i => i
    | None =>
        match environ !! "MEMBRANE_ID" with
        | Some (String a rest) => String a rest
        | _ =>
            match config with
            | Config i => default "unknown" i
            | NoConfig => "unknown"
            end
        end
    end in
  let registry_url :=
    match registry_url with
    | Some u => u
    | None => default "http://localhost:8765" (environ !! "MEMBRANE_REGISTRY_URL")
    end in
  NamespaceClient_init membrane_id registry_url true 25 network disk_ok clock.

(** Events that hand a message to its target. *)
Definition delivery (e : event) : Prop :=
  match e with
  | WriteMessage _ _ _ _ | PostMessage _ _ _ _ => True
  | _ => False
  end.

(** A record in a reply that [MembraneEndpoint] can be built from, and the
    endpoint built from it. *)
Definition describes (fields : kwargs) (e : MembraneEndpoint) : Prop :=
  kw_id fields = Some (id e)
  /\ kw_endpoint fields = Some (endpoint e)
  /\ kw_communication_mode fields = Some (communication_mode e)
  /\ metadata e = default [] (kw_metadata fields).

(** Whether a record in a reply has the three keys [MembraneEndpoint] is
    built from. *)
Definition usable (fields : kwargs) : bool :=
  match kw_id fields, kw_endpoint fields, kw_communication_mode fields with
  | Some _, Some _, Some _ => true
  | _, _, _ => false
  end.

(** The path [list_membranes] asks for. *)
Definition list_path (urlencode : list (string * string) -> string)
    (parent communication_mode : option string) : string :=
  let query_string :=
    urlencode ((if parent is Some p then [("parent", p)] else [])
               ++ (if communication_mode is Some c
                   then [("communication_mode", c)] else [])) in
  if bool_decide (query_string = "") then "/list"
  else "/list?" +:+ query_string.

(** A cached endpoint that is still within the time to live at the next
    reading of the clock. *)
Definition fresh_in_cache (c : NamespaceClient) (target : string)
    (e : MembraneEndpoint) : Prop :=
  membrane_cache c !! target = Some e
  /\ clock c (ticks c) - last_seen e < cache_ttl c.

(** What [_get] makes of the reply to the request, and the state after. *)
Definition get_outcome (r : reply) : res document :=
  match r with
  | Fails e => Raise e
  | Http status doc =>
      if bool_decide (200 <= status < 300) then
        match doc with
        | Invalid => Raise JSONDecodeError
        | _ => Ok doc
        end
      else Raise URLError
  end.

Definition got (path : string) (c : NamespaceClient) : NamespaceClient :=
  next_request (record_event (Get (registry_url c +:+ path)) c).

(** What the request of [discover] yields from state [c0]: the endpoint
    built from the reply, cached under the target, or nothing. *)
Definition fetched (target : string) (c0 : NamespaceClient)
    : res (option MembraneEndpoint) * NamespaceClient :=
  let c1 := got ("/discover/" +:+ target) c0 in
  match get_outcome (network c0 (requests c0)) with
  | Ok (Object success fields) =>
      if empty_object success fields then (Ok None, c1)
      else
        match kw_id fields, kw_endpoint fields, kw_communication_mode fields with
        | Some i, Some ep, Some m =>
            let e := {| id := i; endpoint := ep; communication_mode := m;
                        metadata := default [] (kw_metadata fields);
                        last_seen := clock c0 (ticks c0) |} in
            (Ok (Some e), set_membrane_cache (insert target e) (tick c1))
        | _, _, _ => (Ok None, c1)
        end
  | _ => (Ok None, c1)
  end.

(** The record the sample registry answers every request with. *)
Definition m2_fields : kwargs :=
  {| kw_id := Some "m2"; kw_parent := Some None;
     kw_endpoint := Some "/opt/membrane/communication/inbox/m2";
     kw_communication_mode := Some "shared-volume";
     kw_health_check_url := Some None; kw_metadata := Some [];
     kw_registered_at := Some 7; kw_last_heartbeat := Some 7;
     kw_status := Some "active"; kw_other := [] |}.

(** A client whose registry answers every request with the record of
    ["m2"], on a clock that reads [100 + n] at its [n]-th reading. *)
Definition answered : NamespaceClient :=
  NamespaceClient_init "m1" "http://localhost:8765" true 25
    (fun _ => Http 200 (Object (Some true) m2_fields)) true
    (fun n => 100 + Z.of_nat n).

(** What the client holds for ["m2"] after asking that registry first. *)
Definition m2_endpoint : MembraneEndpoint :=
  {| id := "m2"; endpoint := "/opt/membrane/communication/inbox/m2";
     communication_mode := "shared-volume"; metadata := [];
     last_seen := 100 |}.

End Client.

(** * Properties of the monad *)

Lemma snd_pair {A B} (a : A) (b : B) : (a, b).2 = b.
Proof. reflexivity. Qed.

Lemma bind_ok {S A B} (m : M S A) (k : A -> M S B) s a s' :
  m s = (Ok a, s') -> bind m k s = k a s'.
Proof. unfold bind. by intros ->. Qed.

Lemma bind_raise {S A B} (m : M S A) (k : A -> M S B) s e s' :
  m s = (Raise e, s') -> bind m k s = (Raise e, s').
Proof. unfold bind. by intros ->. Qed.

Lemma bind_assoc {S A B C} (m : M S A) (f : A -> M S B) (g : B -> M S C) s :
  bind m (fun a => bind (f a) g) s = bind (bind m f) g s.
Proof. unfold bind. by destruct (m s) as [[a|e] s']. Qed.

(** * Properties of the registry *)

Module RegistryFacts.
Import Registry.

#[local] Set Warnings "-clear-no-such-hyp".

(** ** Projections through the setters *)

Create Rewrite HintDb proj.

Lemma membranes_record_event e r : membranes (record_event e r) = membranes r.
Proof. reflexivity. Qed.
Lemma peers_record_event e r : peers (record_event e r) = peers r.
Proof. reflexivity. Qed.
Lemma state_file_record_event e r : state_file (record_event e r) = state_file r.
Proof. reflexivity. Qed.
Lemma fs_record_event e r : fs (record_event e r) = fs r.
Proof. reflexivity. Qed.
Lemma clock_record_event e r : clock (record_event e r) = clock r.
Proof. reflexivity. Qed.
Lemma ticks_record_event e r : ticks (record_event e r) = ticks r.
Proof. reflexivity. Qed.
Lemma heartbeat_interval_record_event e r : heartbeat_interval (record_event e r) = heartbeat_interval r.
Proof. reflexivity. Qed.
Lemma cleanup_interval_record_event e r : cleanup_interval (record_event e r) = cleanup_interval r.
Proof. reflexivity. Qed.
Lemma running_record_event e r : running (record_event e r) = running r.
Proof. reflexivity. Qed.
Lemma trace_record_event e r : trace (record_event e r) = trace r ++ [e].
Proof. reflexivity. Qed.
Lemma membranes_tick  r : membranes (tick r) = membranes r.
Proof. reflexivity. Qed.
Lemma peers_tick  r : peers (tick r) = peers r.
Proof. reflexivity. Qed.
Lemma state_file_tick  r : state_file (tick r) = state_file r.
Proof. reflexivity. Qed.
Lemma fs_tick  r : fs (tick r) = fs r.
Proof. reflexivity. Qed.
Lemma clock_tick  r : clock (tick r) = clock r.
Proof. reflexivity. Qed.
Lemma ticks_tick  r : ticks (tick r) = S (ticks r).
Proof. reflexivity. Qed.
Lemma heartbeat_interval_tick  r : heartbeat_interval (tick r) = heartbeat_interval r.
Proof. reflexivity. Qed.
Lemma cleanup_interval_tick  r : cleanup_interval (tick r) = cleanup_interval r.
Proof. reflexivity. Qed.
Lemma running_tick  r : running (tick r) = running r.
Proof. reflexivity. Qed.
Lemma trace_tick  r : trace (tick r) = trace r.
Proof. reflexivity. Qed.
Lemma membranes_set_membranes f r : membranes (set_membranes f r) = f (membranes r).
Proof. reflexivity. Qed.
Lemma peers_set_membranes f r : peers (set_membranes f r) = peers r.
Proof. reflexivity. Qed.
Lemma state_file_set_membranes f r : state_file (set_membranes f r) = state_file r.
Proof. reflexivity. Qed.
Lemma fs_set_membranes f r : fs (set_membranes f r) = fs r.
Proof. reflexivity. Qed.
Lemma clock_set_membranes f r : clock (set_membranes f r) = clock r.
Proof. reflexivity. Qed.
Lemma ticks_set_membranes f r : ticks (set_membranes f r) = ticks r.
Proof. reflexivity. Qed.
Lemma heartbeat_interval_set_membranes f r : heartbeat_interval (set_membranes f r) = heartbeat_interval r.
Proof. reflexivity. Qed.
Lemma cleanup_interval_set_membranes f r : cleanup_interval (set_membranes f r) = cleanup_interval r.
Proof. reflexivity. Qed.
Lemma running_set_membranes f r : running (set_membranes f r) = running r.
Proof. reflexivity. Qed.
Lemma trace_set_membranes f r : trace (set_membranes f r) = trace r.
Proof. reflexivity. Qed.
Lemma membranes_set_state_file c r : membranes (set_state_file c r) = membranes r.
Proof. reflexivity. Qed.
Lemma peers_set_state_file c r : peers (set_state_file c r) = peers r.
Proof. reflexivity. Qed.
Lemma state_file_set_state_file c r : state_file (set_state_file c r) = c.
Proof. reflexivity. Qed.
Lemma fs_set_state_file c r : fs (set_state_file c r) = fs r.
Proof. reflexivity. Qed.
Lemma clock_set_state_file c r : clock (set_state_file c r) = clock r.
Proof. reflexivity. Qed.
Lemma ticks_set_state_file c r : ticks (set_state_file c r) = ticks r.
Proof. reflexivity. Qed.
Lemma heartbeat_interval_set_state_file c r : heartbeat_interval (set_state_file c r) = heartbeat_interval r.
Proof. reflexivity. Qed.
Lemma cleanup_interval_set_state_file c r : cleanup_interval (set_state_file c r) = cleanup_interval r.
Proof. reflexivity. Qed.
Lemma running_set_state_file c r : running (set_state_file c r) = running r.
Proof. reflexivity. Qed.
Lemma trace_set_state_file c r : trace (set_state_file c r) = trace r.
Proof. reflexivity. Qed.
Lemma membranes_set_peers ps r : membranes (set_peers ps r) = membranes r.
Proof. reflexivity. Qed.
Lemma peers_set_peers ps r : peers (set_peers ps r) = ps.
Proof. reflexivity. Qed.
Lemma state_file_set_peers ps r : state_file (set_peers ps r) = state_file r.
Proof. reflexivity. Qed.
Lemma fs_set_peers ps r : fs (set_peers ps r) = fs r.
Proof. reflexivity. Qed.
Lemma clock_set_peers ps r : clock (set_peers ps r) = clock r.
Proof. reflexivity. Qed.
Lemma ticks_set_peers ps r : ticks (set_peers ps r) = ticks r.
Proof. reflexivity. Qed.
Lemma heartbeat_interval_set_peers ps r : heartbeat_interval (set_peers ps r) = heartbeat_interval r.
Proof. reflexivity. Qed.
Lemma cleanup_interval_set_peers ps r : cleanup_interval (set_peers ps r) = cleanup_interval r.
Proof. reflexivity. Qed.
Lemma running_set_peers ps r : running (set_peers ps r) = running r.
Proof. reflexivity. Qed.
Lemma trace_set_peers ps r : trace (set_peers ps r) = trace r.
Proof. reflexivity. Qed.

#[local] Hint Rewrite
  membranes_record_event peers_record_event state_file_record_event
  fs_record_event clock_record_event ticks_record_event
  heartbeat_interval_record_event cleanup_interval_record_event running_record_event
  trace_record_event membranes_tick peers_tick
  state_file_tick fs_tick clock_tick
  ticks_tick heartbeat_interval_tick cleanup_interval_tick
  running_tick trace_tick membranes_set_membranes
  peers_set_membranes state_file_set_membranes fs_set_membranes
  clock_set_membranes ticks_set_membranes heartbeat_interval_set_membranes
  cleanup_interval_set_membranes running_set_membranes trace_set_membranes
  membranes_set_state_file peers_set_state_file state_file_set_state_file
  fs_set_state_file clock_set_state_file ticks_set_state_file
  heartbeat_interval_set_state_file cleanup_interval_set_state_file running_set_state_file
  trace_set_state_file membranes_set_peers peers_set_peers
  state_file_set_peers fs_set_peers clock_set_peers
  ticks_set_peers heartbeat_interval_set_peers cleanup_interval_set_peers
  running_set_peers trace_set_peers
  : proj.


(** ** Frame lemmas for the sub-operations *)

#[local] Arguments saved : simpl never.
#[local] Arguments propagated : simpl never.
#[local] Arguments add_events : simpl never.
#[local] Arguments swept : simpl never.

Lemma add_events_app evs1 evs2 r :
  add_events (evs1 ++ evs2) r = add_events evs2 (add_events evs1 r).
Proof. apply foldl_app. Qed.

Lemma add_events_fields evs r :
  membranes (add_events evs r) = membranes r
  /\ peers (add_events evs r) = peers r
  /\ state_file (add_events evs r) = state_file r
  /\ fs (add_events evs r) = fs r
  /\ clock (add_events evs r) = clock r
  /\ ticks (add_events evs r) = ticks r
  /\ heartbeat_interval (add_events evs r) = heartbeat_interval r
  /\ trace (add_events evs r) = trace r ++ evs.
Proof.
  unfold add_events.
  revert r. induction evs as [|e evs IH]; intros r; simpl.
  - by rewrite app_nil_r.
  - destruct (IH (record_event e r)) as (-> & -> & -> & -> & -> & -> & -> & ->).
    simpl. by rewrite <- app_assoc.
Qed.

Lemma save_state_ok r : _save_state r = (Ok tt, saved r).
Proof.
  unfold saved, _save_state, try_except, bind, read_membranes, emit, modify,
    gets, time_time, write_state_file, ret. simpl.
  by destruct (fs r).
Qed.

Lemma saved_fields r :
  membranes (saved r) = membranes r
  /\ peers (saved r) = peers r
  /\ fs (saved r) = fs r
  /\ clock (saved r) = clock r
  /\ ticks (saved r) = S (ticks r)
  /\ heartbeat_interval (saved r) = heartbeat_interval r.
Proof.
  unfold saved, _save_state, try_except, bind, read_membranes, emit, modify,
    gets, time_time, write_state_file, ret. simpl.
  destruct (fs r) eqn:E; simpl; repeat split; done.
Qed.

Lemma saved_state_file r :
  state_file (saved r) =
    match fs r with
    | WriteOk => snapshot (membranes r) (peers r) (clock r (ticks r))
    | OpenFails => state_file r
    | DumpFails => Unreadable
    end.
Proof.
  unfold saved, _save_state, try_except, bind, read_membranes, emit, modify,
    gets, time_time, write_state_file, ret. simpl.
  by destruct (fs r).
Qed.

Lemma saved_trace r :
  trace (saved r) =
    trace r ++ ReadTable :: (if fs r is OpenFails then [] else [WriteFile]).
Proof.
  unfold saved, _save_state, try_except, bind, read_membranes, emit, modify,
    gets, time_time, write_state_file, ret. simpl.
  destruct (fs r); simpl; by rewrite <- ?app_assoc.
Qed.

Lemma for_each_sends action data (l : list (string * string)) r :
  for_each l (fun '(peer_id, endpoint) =>
      try_except (_send_to_peer endpoint action data) (fun _ => ret tt)) r
  = (Ok tt, add_events (sends action data l) r).
Proof.
  revert r. induction l as [|[k ep] l IH]; intros r; [done|].
  simpl. unfold bind at 1. unfold try_except, _send_to_peer, emit, modify.
  simpl. apply IH.
Qed.

Lemma propagate_ok action data r :
  _propagate_to_peers action data r = (Ok tt, propagated action data r).
Proof.
  unfold _propagate_to_peers, bind, gets. simpl. apply for_each_sends.
Qed.

Lemma propagated_fields action data r :
  membranes (propagated action data r) = membranes r
  /\ peers (propagated action data r) = peers r
  /\ state_file (propagated action data r) = state_file r
  /\ fs (propagated action data r) = fs r
  /\ clock (propagated action data r) = clock r
  /\ ticks (propagated action data r) = ticks r
  /\ heartbeat_interval (propagated action data r) = heartbeat_interval r
  /\ trace (propagated action data r)
     = trace r ++ sends action data (map_to_list (peers r)).
Proof. apply add_events_fields. Qed.

Lemma membranes_saved r : membranes (saved r) = membranes r.
Proof. by destruct (saved_fields r) as (H & _ & _ & _ & _ & _). Qed.
Lemma peers_saved r : peers (saved r) = peers r.
Proof. by destruct (saved_fields r) as (_ & H & _ & _ & _ & _). Qed.
Lemma fs_saved r : fs (saved r) = fs r.
Proof. by destruct (saved_fields r) as (_ & _ & H & _ & _ & _). Qed.
Lemma clock_saved r : clock (saved r) = clock r.
Proof. by destruct (saved_fields r) as (_ & _ & _ & H & _ & _). Qed.
Lemma ticks_saved r : ticks (saved r) = S (ticks r).
Proof. by destruct (saved_fields r) as (_ & _ & _ & _ & H & _). Qed.
Lemma heartbeat_interval_saved r : heartbeat_interval (saved r) = heartbeat_interval r.
Proof. by destruct (saved_fields r) as (_ & _ & _ & _ & _ & H). Qed.
Lemma membranes_propagated action data r :
  membranes (propagated action data r) = membranes r.
Proof.
  by destruct (propagated_fields action data r)
    as (H & _ & _ & _ & _ & _ & _ & _).
Qed.
Lemma peers_propagated action data r :
  peers (propagated action data r) = peers r.
Proof.
  by destruct (propagated_fields action data r)
    as (_ & H & _ & _ & _ & _ & _ & _).
Qed.
Lemma state_file_propagated action data r :
  state_file (propagated action data r) = state_file r.
Proof.
  by destruct (propagated_fields action data r)
    as (_ & _ & H & _ & _ & _ & _ & _).
Qed.
Lemma fs_propagated action data r :
  fs (propagated action data r) = fs r.
Proof.
  by destruct (propagated_fields action data r)
    as (_ & _ & _ & H & _ & _ & _ & _).
Qed.
Lemma clock_propagated action data r :
  clock (propagated action data r) = clock r.
Proof.
  by destruct (propagated_fields action data r)
    as (_ & _ & _ & _ & H & _ & _ & _).
Qed.
Lemma ticks_propagated action data r :
  ticks (propagated action data r) = ticks r.
Proof.
  by destruct (propagated_fields action data r)
    as (_ & _ & _ & _ & _ & H & _ & _).
Qed.
Lemma heartbeat_interval_propagated action data r :
  heartbeat_interval (propagated action data r) = heartbeat_interval r.
Proof.
  by destruct (propagated_fields action data r)
    as (_ & _ & _ & _ & _ & _ & H & _).
Qed.
Lemma trace_propagated action data r :
  trace (propagated action data r) = trace r ++ sends action data (map_to_list (peers r)).
Proof.
  by destruct (propagated_fields action data r)
    as (_ & _ & _ & _ & _ & _ & _ & H).
Qed.
#[local] Hint Rewrite
  membranes_saved peers_saved fs_saved
  clock_saved ticks_saved heartbeat_interval_saved
  membranes_propagated peers_propagated state_file_propagated
  fs_propagated clock_propagated ticks_propagated
  heartbeat_interval_propagated trace_propagated
  saved_state_file saved_trace : proj.


(** ** Closed forms of the store operations *)

Ltac run_store :=
  unfold with_lock, finally, bind, read_membranes, write_membranes, emit,
    modify, gets, time_time, ret, when; simpl;
  rewrite ?save_state_ok; simpl; rewrite ?propagate_ok; simpl.

Lemma register_membrane_run m r :
  let m' := stamped (clock r) (ticks r) m in
  register_membrane m r =
    (Ok true,
     record_event Release
       (propagated "register" (asdict m')
          (saved (set_membranes (insert (id m) m')
                    (record_event WriteTable
                       (tick (tick (record_event Acquire r)))))))).
Proof. intros m'. unfold register_membrane. run_store. done. Qed.

Lemma deregister_membrane_run i r :
  deregister_membrane i r =
    match membranes r !! i with
    | Some _ =>
        (Ok true,
         record_event Release
           (propagated "deregister" (id_only i)
              (saved (set_membranes (delete i)
                        (record_event WriteTable
                           (record_event ReadTable (record_event Acquire r)))))))
    | None =>
        (Ok false,
         record_event Release (record_event ReadTable (record_event Acquire r)))
    end.
Proof.
  unfold deregister_membrane. run_store.
  destruct (membranes r !! i); run_store; done.
Qed.

Lemma discover_membrane_run i r :
  discover_membrane i r =
    (Ok (membranes r !! i),
     record_event Release (record_event ReadTable (record_event Acquire r))).
Proof. unfold discover_membrane. run_store. done. Qed.

Lemma heartbeat_run i r :
  heartbeat i r =
    match membranes r !! i with
    | Some _ =>
        (Ok true,
         record_event Release
           (set_membranes (alter (set_status "active") i)
              (record_event WriteTable
                 (set_membranes (alter (set_last_heartbeat (clock r (ticks r))) i)
                    (record_event WriteTable
                       (tick (record_event ReadTable
                                (record_event Acquire r))))))))
    | None =>
        (Ok false,
         record_event Release (record_event ReadTable (record_event Acquire r)))
    end.
Proof.
  unfold heartbeat. run_store.
  destruct (membranes r !! i); run_store; done.
Qed.

Lemma sweep_run now r :
  sweep now r =
    (Ok tt, record_event Release (swept now (record_event Acquire r))).
Proof.
  unfold sweep, swept. run_store.
  destruct (bool_decide _); run_store; done.
Qed.

Ltac fields := cbn [fst snd]; autorewrite with proj.

Lemma register_membrane_fields m r :
  let r' := (register_membrane m r).2 in
  membranes r' = <[id m := stamped (clock r) (ticks r) m]> (membranes r)
  /\ peers r' = peers r
  /\ fs r' = fs r
  /\ clock r' = clock r
  /\ ticks r' = S (S (S (ticks r)))
  /\ heartbeat_interval r' = heartbeat_interval r.
Proof.
  rewrite register_membrane_run. fields. repeat split; reflexivity.
Qed.

(** ** Records stay under their own id *)

Lemma keyed_by_id_insert ms m :
  keyed_by_id ms -> keyed_by_id (<[id m := m]> ms).
Proof.
  intros H k x. rewrite lookup_insert.
  case_decide; [intros [= <-]; congruence | apply H].
Qed.

Lemma keyed_by_id_delete ms i : keyed_by_id ms -> keyed_by_id (delete i ms).
Proof.
  intros H k x. rewrite lookup_delete.
  case_decide; [done | apply H].
Qed.

Lemma keyed_by_id_register m r :
  keyed_by_id (membranes r) ->
  keyed_by_id (membranes (register_membrane m r).2).
Proof.
  intros H. destruct (register_membrane_fields m r) as (-> & _).
  apply (keyed_by_id_insert _ (stamped (clock r) (ticks r) m) H).
Qed.

(** ** Runs of [register] *)


Lemma register_all_cons c calls r :
  register_all (c :: calls) r = register_all calls (register_membrane c r).2.
Proof.
  unfold register_all. simpl. unfold bind at 1 2.
  rewrite register_membrane_run. done.
Qed.




Lemma register_all_keyed calls r :
  keyed_by_id (membranes r) -> keyed_by_id (membranes (register_all calls r).2).
Proof.
  revert r. induction calls as [|c calls IH]; intros r H; [done|].
  rewrite register_all_cons. by apply IH, keyed_by_id_register.
Qed.


Lemma elem_of_values (ms : gmap string MembraneInfo) m :
  m ∈ values ms <-> exists k, ms !! k = Some m.
Proof.
  unfold values. rewrite list_elem_of_fmap. split.
  - intros ([k x] & -> & H). exists k. by apply elem_of_map_to_list.
  - intros [k H]. exists (k, m). split; [done|]. by apply elem_of_map_to_list.
Qed.





(** ** Listing *)

Lemma list_membranes_run p c r :
  exists l,
    list_membranes p c r =
      (Ok l, record_event Release
               (record_event ReadTable (record_event Acquire r)))
    /\ forall m, m ∈ l <-> (exists k, membranes r !! k = Some m) /\ matches p c m.
Proof.
  unfold list_membranes. run_store. eexists. split; [reflexivity|].
  intros m. unfold matches.
  destruct p as [p|], c as [c|];
    rewrite ?list_elem_of_filter, elem_of_values; naive_solver.
Qed.

(** C1.  A GET for [/list] followed by a query string is answered 404: the
    dispatch in [do_GET] compares the whole request path with ["/list"], so
    the filters never reach [list_membranes]. *)
Theorem do_GET_list_with_query parse_qs q r :
  do_GET parse_qs ("/list?" +:+ q) r
  = (Ok (SendError 404 (Text "Not Found")), r).
Proof.
  unfold do_GET.
  rewrite !bool_decide_eq_false_2 by (simpl; discriminate).
  reflexivity.
Qed.

(** ** The path helpers on concrete paths *)

Example last_segment_discover : last_segment "/" "/discover/m1" = "m1".
Proof. reflexivity. Qed.

Example last_segment_nested : last_segment "/" "/discover/a/b" = "b".
Proof. reflexivity. Qed.

Example after_first_query :
  after_first "?" "/list?parent=root&x=?" = "parent=root&x=?".
Proof. reflexivity. Qed.

Example init_defaults_status :
  status <$> (if MembraneInfo_init
                   {| kw_id := Some "m1"; kw_parent := Some None;
                      kw_endpoint := Some "/tmp/x";
                      kw_communication_mode := Some "ipc";
                      kw_health_check_url := Some None; kw_metadata := Some [];
                      kw_registered_at := Some 1; kw_last_heartbeat := Some 2;
                      kw_status := None; kw_other := [] |}
              is Ok m then Some m else None)
  = Some "active".
Proof. reflexivity. Qed.

Example init_rejects_unknown_key :
  MembraneInfo_init
    {| kw_id := Some "m1"; kw_parent := Some None; kw_endpoint := Some "/tmp/x";
       kw_communication_mode := Some "ipc"; kw_health_check_url := Some None;
       kw_metadata := Some []; kw_registered_at := Some 1;
       kw_last_heartbeat := Some 2; kw_status := None; kw_other := ["ttl"] |}
  = Raise TypeError.
Proof. reflexivity. Qed.

(** ** Lock discipline *)

Lemma new_events_app r r' evs :
  trace r' = trace r ++ evs -> new_events r r' = evs.
Proof. intros H. unfold new_events. rewrite H. apply drop_app_length. Qed.

Lemma guarded_quiet depth l l' :
  Forall quiet l -> guarded depth (l ++ l') = guarded depth l'.
Proof.
  induction 1 as [|e l He _ IH]; [done|].
  destruct e; simpl in *; done.
Qed.

Lemma sends_quiet action data ps : Forall quiet (sends action data ps).
Proof. unfold sends. apply Forall_fmap, Forall_true. done. Qed.

Lemma register_membrane_events m r :
  new_events r (register_membrane m r).2
  = [Acquire; WriteTable; ReadTable]
    ++ (if fs r is OpenFails then [] else [WriteFile])
    ++ sends "register" (asdict (stamped (clock r) (ticks r) m))
         (map_to_list (peers r))
    ++ [Release].
Proof.
  apply new_events_app. rewrite register_membrane_run. fields.
  rewrite <- !app_assoc. reflexivity.
Qed.

Lemma deregister_membrane_events i r :
  new_events r (deregister_membrane i r).2
  = match membranes r !! i with
    | Some _ =>
        [Acquire; ReadTable; WriteTable; ReadTable]
        ++ (if fs r is OpenFails then [] else [WriteFile])
        ++ sends "deregister" (id_only i) (map_to_list (peers r))
        ++ [Release]
    | None => [Acquire; ReadTable; Release]
    end.
Proof.
  apply new_events_app. rewrite deregister_membrane_run.
  destruct (membranes r !! i); fields; rewrite <- !app_assoc; reflexivity.
Qed.

Lemma heartbeat_events i r :
  new_events r (heartbeat i r).2
  = match membranes r !! i with
    | Some _ => [Acquire; ReadTable; WriteTable; WriteTable; Release]
    | None => [Acquire; ReadTable; Release]
    end.
Proof.
  apply new_events_app. rewrite heartbeat_run.
  destruct (membranes r !! i); fields; rewrite <- !app_assoc; reflexivity.
Qed.

Lemma discover_membrane_events i r :
  new_events r (discover_membrane i r).2 = [Acquire; ReadTable; Release].
Proof.
  apply new_events_app. rewrite discover_membrane_run. fields.
  rewrite <- !app_assoc. reflexivity.
Qed.

Lemma list_membranes_events p c r :
  new_events r (list_membranes p c r).2 = [Acquire; ReadTable; Release].
Proof.
  apply new_events_app. destruct (list_membranes_run p c r) as (l & -> & _).
  fields. rewrite <- !app_assoc. reflexivity.
Qed.

Lemma swept_fields now r :
  let interval := heartbeat_interval r in
  let table :=
    remove_expired now interval (mark_unhealthy now interval <$> membranes r) in
  let stale := stale_ids now interval (membranes r) in
  membranes (swept now r) = table
  /\ peers (swept now r) = peers r
  /\ heartbeat_interval (swept now r) = interval
  /\ state_file (swept now r)
     = (if bool_decide (stale = []) then state_file r
        else match fs r with
             | WriteOk => snapshot table (peers r) (clock r (ticks r))
             | OpenFails => state_file r
             | DumpFails => Unreadable
             end)
  /\ trace (swept now r)
     = trace r ++ [ReadTable; WriteTable; ReadTable; WriteTable]
       ++ (if bool_decide (stale = []) then []
           else ReadTable :: (if fs r is OpenFails then [] else [WriteFile])).
Proof.
  intros interval table stale. unfold swept.
  fold interval. fold stale. destruct (bool_decide (stale = []));
    fields; rewrite <- ?app_assoc; repeat split; reflexivity.
Qed.

Lemma sweep_events now r :
  new_events r (sweep now r).2
  = [Acquire; ReadTable; WriteTable; ReadTable; WriteTable]
    ++ (if bool_decide (stale_ids now (heartbeat_interval r) (membranes r) = [])
        then []
        else ReadTable :: (if fs r is OpenFails then [] else [WriteFile]))
    ++ [Release].
Proof.
  apply new_events_app. rewrite sweep_run. fields.
  destruct (swept_fields now (record_event Acquire r)) as (_ & _ & _ & _ & ->).
  fields. rewrite <- !app_assoc. reflexivity.
Qed.

(** Every store operation, and the sweep, touches the table under the lock
    only. *)
Lemma store_operations_guarded r :
  (forall m, guarded 0 (new_events r (register_membrane m r).2) = true)
  /\ (forall i, guarded 0 (new_events r (deregister_membrane i r).2) = true)
  /\ (forall i, guarded 0 (new_events r (heartbeat i r).2) = true)
  /\ (forall i, guarded 0 (new_events r (discover_membrane i r).2) = true)
  /\ (forall p c, guarded 0 (new_events r (list_membranes p c r).2) = true)
  /\ (forall now, guarded 0 (new_events r (sweep now r).2) = true).
Proof.
  repeat split; intros.
  - rewrite register_membrane_events.
    destruct (fs r); cbn [guarded app negb Nat.eqb andb];
      rewrite guarded_quiet by apply sends_quiet; reflexivity.
  - rewrite deregister_membrane_events.
    destruct (membranes r !! i); [|reflexivity].
    destruct (fs r); cbn [guarded app negb Nat.eqb andb];
      rewrite guarded_quiet by apply sends_quiet; reflexivity.
  - rewrite heartbeat_events. by destruct (membranes r !! i).
  - by rewrite discover_membrane_events.
  - by rewrite list_membranes_events.
  - rewrite sweep_events.
    destruct (bool_decide _); [reflexivity|]. by destruct (fs r).
Qed.

Lemma init_asdict m : MembraneInfo_init (asdict m) = Ok m.
Proof. by destruct m. Qed.

(** C2.  The upsert and the delete that [/peer-sync] applies write the
    membrane table without taking the registry's lock: the only event of the
    handler is the write itself, with no [Acquire] before it, whereas every
    store operation brackets its accesses (see [store_operations_guarded]). *)
Theorem peer_sync_bypasses_lock r m i :
  let upsert := _handle_peer_sync (Sync (Some "register") (Some (EObject (asdict m)))) r in
  let remove := _handle_peer_sync (Sync (Some "deregister") (Some (EObject (id_only i)))) r in
  upsert.1 = Ok (SendJson (Success true))
  /\ membranes upsert.2 = <[id m := m]> (membranes r)
  /\ new_events r upsert.2 = [WriteTable]
  /\ remove.1 = Ok (SendJson (Success true))
  /\ membranes remove.2 = delete i (membranes r)
  /\ new_events r remove.2 = [WriteTable]
  /\ guarded 0 [WriteTable] = false.
Proof.
  intros upsert remove. subst upsert remove.
  unfold _handle_peer_sync, try_except, bind, _read_json, construct, entry_id,
    write_membranes, emit, modify, ret.
  cbn [bool_decide decide_rel]. rewrite init_asdict.
  repeat split; try reflexivity; apply new_events_app; reflexivity.
Qed.

(** ** The health sweeper *)

Lemma last_heartbeat_mark now interval m :
  last_heartbeat (mark_unhealthy now interval m) = last_heartbeat m.
Proof. unfold mark_unhealthy. by destruct (overdue now interval 2 m). Qed.

Lemma overdue_mark now interval k m :
  overdue now interval k (mark_unhealthy now interval m)
  = overdue now interval k m.
Proof. unfold overdue. by rewrite last_heartbeat_mark. Qed.

(** What a sweep leaves under each key. *)
Lemma sweep_lookup now r k :
  membranes (sweep now r).2 !! k
  = match membranes r !! k with
    | Some m =>
        if overdue now (heartbeat_interval r) 5 m then None
        else Some (mark_unhealthy now (heartbeat_interval r) m)
    | None => None
    end.
Proof.
  rewrite sweep_run. fields.
  destruct (swept_fields now (record_event Acquire r)) as (-> & _).
  fields. unfold remove_expired.
  destruct (membranes r !! k) as [m|] eqn:Hk.
  - destruct (overdue now (heartbeat_interval r) 5 m) eqn:Ho.
    + apply map_lookup_filter_None. right. intros x Hx.
      rewrite lookup_fmap, Hk in Hx. injection Hx as <-.
      cbn [snd]. rewrite overdue_mark, Ho. discriminate.
    + apply map_lookup_filter_Some. split.
      * by rewrite lookup_fmap, Hk.
      * cbn [snd]. by rewrite overdue_mark.
  - apply map_lookup_filter_None. left. by rewrite lookup_fmap, Hk.
Qed.

(** One pass of the worker sleeps, reads the clock and sweeps. *)
Lemma cleanup_pass_sweeps r :
  0 <= cleanup_interval r ->
  _cleanup_pass r
  = (Ok tt,
     (sweep (clock r (ticks r))
            (tick (record_event (Sleep (cleanup_interval r)) r))).2).
Proof.
  intros H. unfold _cleanup_pass, try_except, bind, gets, time_sleep, time_time.
  destruct (Z.ltb_spec (cleanup_interval r) 0) as [?|_]; [lia|].
  unfold emit, modify. fields. by rewrite sweep_run.
Qed.

(** C3, as the code has it.  At a sweep, a record is deleted if and only if
    its [elapsed = now - last_heartbeat] is strictly greater than
    [5 * heartbeat_interval]; a record that survives (so with
    [elapsed <= 5 * heartbeat_interval], the bound included) has its status
    set to ["unhealthy"] when [elapsed > 2 * heartbeat_interval] and is left
    as it was otherwise. *)
Theorem sweep_thresholds r now k m :
  membranes r !! k = Some m ->
  let interval := heartbeat_interval r in
  let elapsed := now - last_heartbeat m in
  let after := membranes (sweep now r).2 !! k in
  (after = None <-> elapsed > interval * 5)
  /\ (elapsed <= interval * 5 ->
      after = Some (if bool_decide (elapsed > interval * 2)
                    then set_status "unhealthy" m else m)).
Proof.
  intros Hk interval elapsed after. subst after.
  rewrite sweep_lookup, Hk. fold interval.
  unfold overdue, mark_unhealthy, overdue. fold elapsed.
  split.
  - case_bool_decide; split; intros; done || lia.
  - intros Hle. rewrite bool_decide_eq_false_2 by lia. done.
Qed.

Lemma sweep_thresholds_witness :
  membranes (sweep 200 with_m1).2 !! "m1" = None <-> 200 - 0 > 30 * 5.
Proof.
  refine (proj1 (sweep_thresholds with_m1 200 "m1" m1 _)).
  unfold with_m1. cbn [membranes set_membranes]. apply lookup_insert_eq.
Defined.

(** C3, counterexample: with [heartbeat_interval = 30], a record last heard
    of 150 seconds before the sweep, that is exactly [5 * heartbeat_interval],
    is still in the table after the sweep, marked unhealthy. *)
Lemma sweep_keeps_record_at_five_intervals :
  150 - last_heartbeat m1 >= 5 * heartbeat_interval with_m1
  /\ membranes (sweep 150 with_m1).2 !! "m1" = Some (set_status "unhealthy" m1).
Proof.
  split; [vm_compute; discriminate|].
  rewrite sweep_lookup. unfold with_m1. cbn [membranes set_membranes].
  rewrite lookup_insert_eq. reflexivity.
Qed.

(** ** Persistence *)




(** ** Ids are not checked *)

Lemma handle_register_run b r :
  b <> UnhashableId true ->
  _handle_register b r
  = match accepted b with
    | Some m => (Ok (SendJson (Success true)), (register_membrane m r).2)
    | None =>
        (Ok (SendError 400
               (StrOf (if b is NotJson then JSONDecodeError else TypeError))),
         r)
    end.
Proof.
  intros Hb.
  unfold _handle_register, try_except, bind, _read_json, as_kwargs, construct,
    accepted, ret, raise.
  destruct b as [| |kw|action payload|[|]]; try reflexivity; [| |done].
  - destruct (MembraneInfo_init kw) as [m|e] eqn:E.
    + rewrite register_membrane_run. reflexivity.
    + unfold MembraneInfo_init in E.
      repeat (match type of E with
              | context [match ?x with _ => _ end] => destruct x
              end; try discriminate E); by injection E as <-.
  - unfold MembraneInfo_init. cbn [kw_id]. by destruct (_ ++ _).
Qed.


Lemma accepted_hashable b m : accepted b = Some m -> b <> UnhashableId true.
Proof. by intros H ->. Qed.

(** C6, as the code has it.  No operation looks at whether an id is empty:
    each treats every string alike.  [register_membrane] returns [True] and
    stores the record under its id, whatever string that is, and so does
    [/register] given the JSON of the record; [deregister_membrane] and
    [heartbeat] return whether a record is stored under the id they are
    given, and [discover_membrane] returns the record stored under it, if
    any. *)
Theorem ids_are_not_checked m i r :
  (register_membrane m r).1 = Ok true
  /\ membranes (register_membrane m r).2 !! id m
     = Some (stamped (clock r) (ticks r) m)
  /\ (_handle_register (Fields (asdict m)) r).1 = Ok (SendJson (Success true))
  /\ membranes (_handle_register (Fields (asdict m)) r).2 !! id m
     = Some (stamped (clock r) (ticks r) m)
  /\ (deregister_membrane i r).1 = Ok (known (membranes r) i)
  /\ (heartbeat i r).1 = Ok (known (membranes r) i)
  /\ (discover_membrane i r).1 = Ok (membranes r !! i).
Proof.
  assert (H : membranes (register_membrane m r).2 !! id m
              = Some (stamped (clock r) (ticks r) m)).
  { destruct (register_membrane_fields m r) as (-> & _).
    apply lookup_insert_eq. }
  rewrite handle_register_run by discriminate.
  unfold accepted. rewrite init_asdict, snd_pair.
  rewrite deregister_membrane_run, heartbeat_run, discover_membrane_run.
  rewrite register_membrane_run at 1.
  unfold known. repeat split; try done.
  - by destruct (membranes r !! i).
  - by destruct (membranes r !! i).
Qed.

(** C6, counterexample: a registration whose id is the empty string is
    accepted and stored under the empty key, where the other operations then
    find it. *)
Lemma empty_id_is_registered :
  let out := _handle_register (Fields (asdict anonymous)) fresh in
  id anonymous = ""
  /\ out.1 = Ok (SendJson (Success true))
  /\ membranes out.2 !! "" = Some (stamped (clock fresh) 0 anonymous)
  /\ (heartbeat "" out.2).1 = Ok true
  /\ (deregister_membrane "" out.2).1 = Ok true.
Proof.
  assert (H : membranes (_handle_register (Fields (asdict anonymous)) fresh).2 !! ""
              = Some (stamped (clock fresh) 0 anonymous)).
  { rewrite handle_register_run by discriminate.
    unfold accepted. rewrite init_asdict, snd_pair.
    destruct (register_membrane_fields anonymous fresh) as (-> & _).
    apply lookup_insert_eq. }
  cbv zeta. rewrite heartbeat_run, deregister_membrane_run, H.
  rewrite handle_register_run by discriminate.
  unfold accepted. rewrite init_asdict.
  repeat split; reflexivity.
Qed.

(** ** Loading the state file *)

Lemma load_entry_run e r :
  load_entry e r
  = match e with
    | EObject kw =>
        match MembraneInfo_init kw with
        | Ok m => (Ok tt, set_membranes (insert (id m) m)
                            (record_event WriteTable r))
        | Raise x => (Raise x, r)
        end
    | ENotObject => (Raise TypeError, r)
    end.
Proof.
  destruct e as [kw|]; [|reflexivity].
  unfold load_entry. by destruct (MembraneInfo_init kw).
Qed.

Lemma for_each_cons {S A} (x : A) (l : list A) (body : A -> M S unit) (s : S) :
  for_each (x :: l) body s
  = match body x s with
    | (Ok _, s') => for_each l body s'
    | (Raise e, s') => (Raise e, s')
    end.
Proof. reflexivity. Qed.

(** The loop over the entries: it stops at the first entry that does not
    construct, keeping what it has stored so far. *)
Lemma load_entries_run es r :
  let out := for_each es load_entry r in
  (if forallb loadable es then out.1 = Ok tt else exists x, out.1 = Raise x)
  /\ membranes out.2 = load_prefix es (membranes r)
  /\ peers out.2 = peers r.
Proof.
  revert r. induction es as [|e es IH]; intros r; [done|].
  cbv zeta. rewrite for_each_cons, load_entry_run.
  destruct e as [kw|]; cbn [forallb loadable load_prefix andb].
  - destruct (MembraneInfo_init kw) as [m|x]; cbn [andb].
    + pose proof (IH (set_membranes (insert (id m) m)
                        (record_event WriteTable r))) as H.
      cbv zeta in H. autorewrite with proj in H. exact H.
    + rewrite !snd_pair. repeat split. by exists x.
  - rewrite !snd_pair. repeat split. by exists TypeError.
Qed.

Lemma load_state_run r :
  _load_state r
  = match state_file r with
    | NoFile | Unreadable => (Ok tt, r)
    | StateDoc es ps _ =>
        match for_each es load_entry r with
        | (Ok _, r') => (Ok tt, set_peers ps r')
        | (Raise _, r') => (Ok tt, r')
        end
    end.
Proof.
  unfold _load_state, _load_state_try, try_except, bind, gets, modify, raise, ret.
  destruct (state_file r) as [| |es ps t]; try reflexivity.
  by destruct (for_each es load_entry r) as [[[]|x] r'].
Qed.

Lemma load_state_never_raises_aux r :
  (_load_state r).1 = Ok tt
  /\ membranes (_load_state r).2
     = match state_file r with
       | StateDoc es _ _ => load_prefix es (membranes r)
       | _ => membranes r
       end
  /\ peers (_load_state r).2
     = match state_file r with
       | StateDoc es ps _ => if forallb loadable es then ps else peers r
       | _ => peers r
       end.
Proof.
  rewrite load_state_run.
  destruct (state_file r) as [| |es ps t]; try done.
  destruct (load_entries_run es r) as (H1 & H2 & H3).
  destruct (for_each es load_entry r) as [[[]|x] r'];
    rewrite !snd_pair in *; cbn [fst] in *; autorewrite with proj.
  - destruct (forallb loadable es); [done|]. by destruct H1.
  - destruct (forallb loadable es); [done|]. done.
Qed.

(** C8, as the code has it.  Loading the state file never raises, so a load
    failure does not stop the registry.  With no file, or a file that cannot
    be read as a state document, the table stays as it was (empty at
    start-up).  With a document, the entries are stored one by one up to the
    first that cannot be reconstructed: the table holds the entries before
    it, and the peer map is taken from the file only when every entry was
    stored. *)
Theorem load_state_never_raises r :
  (_load_state r).1 = Ok tt
  /\ membranes (_load_state r).2
     = match state_file r with
       | StateDoc es _ _ => load_prefix es (membranes r)
       | _ => membranes r
       end
  /\ peers (_load_state r).2
     = match state_file r with
       | StateDoc es ps _ => if forallb loadable es then ps else peers r
       | _ => peers r
       end
  /\ forall rid p hb ci disk mode clk,
       (NamespaceRegistry_init rid p hb ci true disk mode clk).1 = Ok tt
       /\ membranes (NamespaceRegistry_init rid p hb ci true disk mode clk).2
          = match disk with
            | StateDoc es _ _ => load_prefix es ∅
            | _ => ∅
            end.
Proof.
  destruct (load_state_never_raises_aux r) as (? & ? & ?).
  repeat split; try done.
  - apply (load_state_never_raises_aux (blank rid p hb ci disk mode clk)).
  - apply (load_state_never_raises_aux (blank rid p hb ci disk mode clk)).
Qed.

(** C8, counterexample: the second entry of the file cannot be
    reconstructed, so the load fails; the registry starts with the first
    entry in its table, not with an empty one. *)
Lemma load_keeps_entries_before_bad_one :
  state_file booting = half_good
  /\ membranes booting = ∅
  /\ (_load_state_try booting).1 = Raise TypeError
  /\ (_load_state booting).1 = Ok tt
  /\ membranes (_load_state booting).2 = {[ "m1" := m1 ]}.
Proof. repeat split; reflexivity. Qed.

(** ** The invariant is kept by every path that writes the table *)

Lemma keyed_by_id_alter ms f i :
  (forall m, id (f m) = id m) -> keyed_by_id ms -> keyed_by_id (alter f i ms).
Proof.
  intros Hf H k x. rewrite lookup_alter.
  case_decide as E; [subst k|apply H].
  destruct (ms !! i) as [m|] eqn:Hm; [|done].
  intros [= <-]. rewrite Hf. by apply H.
Qed.

Lemma keyed_by_id_load_prefix es ms :
  keyed_by_id ms -> keyed_by_id (load_prefix es ms).
Proof.
  revert ms. induction es as [|[kw|] es IH]; intros ms H; try done.
  cbn [load_prefix]. destruct (MembraneInfo_init kw) as [m|]; [|done].
  by apply IH, keyed_by_id_insert.
Qed.

Lemma keyed_by_id_kept r :
  keyed_by_id (membranes r) ->
  (forall i, keyed_by_id (membranes (deregister_membrane i r).2))
  /\ (forall i, keyed_by_id (membranes (heartbeat i r).2))
  /\ (forall now, keyed_by_id (membranes (sweep now r).2))
  /\ (forall b, keyed_by_id (membranes (_handle_peer_sync b r).2))
  /\ keyed_by_id (membranes (_load_state r).2).
Proof.
  intros H. repeat split.
  - intros i. rewrite deregister_membrane_run.
    destruct (membranes r !! i); fields; [|done]. by apply keyed_by_id_delete.
  - intros i. rewrite heartbeat_run.
    destruct (membranes r !! i); fields; [|done].
    by do 2 (apply keyed_by_id_alter; [done|]).
  - intros now k x. rewrite sweep_lookup.
    destruct (membranes r !! k) as [m|] eqn:Hm; [|done].
    destruct (overdue now (heartbeat_interval r) 5 m); [done|].
    intros [= <-]. unfold mark_unhealthy.
    destruct (overdue now (heartbeat_interval r) 2 m); exact (H k m Hm).
  - intros b.
    unfold _handle_peer_sync, try_except, bind, _read_json, construct, entry_id,
      write_membranes, emit, modify, ret, raise.
    destruct b as [| |kw|[action|] [[kw|]|]|complete]; try done.
    + case_bool_decide; [|case_bool_decide; [|done]].
      * destruct (MembraneInfo_init kw) as [m|]; [|done].
        cbn [snd membranes set_membranes record_event].
        by apply keyed_by_id_insert.
      * destruct (kw_id kw); [|done].
        cbn [snd membranes set_membranes record_event].
        by apply keyed_by_id_delete.
    + case_bool_decide; [done|]. by case_bool_decide.
  - destruct (load_state_never_raises_aux r) as (_ & -> & _).
    destruct (state_file r); try done. by apply keyed_by_id_load_prefix.
Qed.

(** ** The bare [/list] route *)

Lemma do_GET_list_plain parse_qs r :
  parse_qs "" = ∅ ->
  do_GET parse_qs "/list" r
  = (Ok (SendJson (Membranes (asdict <$> values (membranes r)))),
     record_event Release (record_event ReadTable (record_event Acquire r))).
Proof.
  intros H. unfold do_GET.
  rewrite bool_decide_eq_false_2 by discriminate.
  rewrite bool_decide_eq_true_2 by reflexivity.
  change (String.prefix "/discover/" "/list") with false. cbv iota.
  unfold _handle_list, try_except.
  change (contains "?" "/list") with false. cbv iota.
  rewrite H. unfold first_value. rewrite !lookup_empty.
  unfold bind at 1. unfold ret at 1. unfold bind at 1. unfold ret at 1.
  unfold bind at 1. unfold list_membranes. run_store. reflexivity.
Qed.

(** ** Further properties of the store operations *)

(** [heartbeat] on a registered id answers [True], sets that record's
    [last_heartbeat] to the clock reading and its status to ["active"]
    whatever it was, and touches nothing else: the other fields of the
    record, the other records, the peers and the state file stay as they
    were.  On an id that is not registered it answers [False] and leaves the
    table as it is. *)
Theorem heartbeat_resets_record r i :
  let r' := (heartbeat i r).2 in
  match membranes r !! i with
  | Some m =>
      (heartbeat i r).1 = Ok true
      /\ membranes r'
         = <[i := set_status "active" (set_last_heartbeat (clock r (ticks r)) m)]>
             (membranes r)
  | None => (heartbeat i r).1 = Ok false /\ membranes r' = membranes r
  end
  /\ peers r' = peers r
  /\ state_file r' = state_file r.
Proof.
  intros r'. subst r'. rewrite heartbeat_run.
  destruct (membranes r !! i) as [m|] eqn:Hm; fields; repeat split; try done.
  apply map_eq. intros k. rewrite lookup_insert.
  case_decide as E.
  - subst k. by rewrite !lookup_alter_eq, Hm.
  - by rewrite !lookup_alter_ne.
Qed.

(** [deregister_membrane] on a registered id answers [True] and removes that
    record and no other, so that a [discover] of the id finds nothing
    afterwards.  On an id that is not registered it answers [False] and does
    nothing besides taking the lock and looking: the table and the state file
    are unchanged, nothing is saved and no peer is told. *)
Theorem deregister_removes_record r i :
  let r' := (deregister_membrane i r).2 in
  (deregister_membrane i r).1 = Ok (known (membranes r) i)
  /\ membranes r' = delete i (membranes r)
  /\ (discover_membrane i r').1 = Ok None
  /\ (membranes r !! i = None ->
      membranes r' = membranes r
      /\ state_file r' = state_file r
      /\ new_events r r' = [Acquire; ReadTable; Release]).
Proof.
  intros r'. subst r'.
  rewrite discover_membrane_run, deregister_membrane_events,
    deregister_membrane_run.
  unfold known. destruct (membranes r !! i) as [m|] eqn:Hm; fields.
  - rewrite lookup_delete_eq. repeat split; done.
  - rewrite Hm, delete_id by done. repeat split; done.
Qed.

Lemma deregister_removes_record_witness :
  membranes (deregister_membrane "m2" with_m1).2 = membranes with_m1
  /\ state_file (deregister_membrane "m2" with_m1).2 = state_file with_m1
  /\ new_events with_m1 (deregister_membrane "m2" with_m1).2
     = [Acquire; ReadTable; Release].
Proof.
  refine (proj2 (proj2 (proj2 (deregister_removes_record with_m1 "m2"))) _).
  reflexivity.
Defined.

(** [list_membranes] returns the stored records that pass every filter
    given, in the order of the table, and nothing else; without filters it
    returns every stored record.  It changes nothing in the table. *)
Theorem list_membranes_filters p c r :
  exists l,
    (list_membranes p c r).1 = Ok l
    /\ membranes (list_membranes p c r).2 = membranes r
    /\ sublist l (values (membranes r))
    /\ (p = None -> c = None -> l = values (membranes r))
    /\ (forall m, m ∈ l <->
          (exists k, membranes r !! k = Some m) /\ matches p c m).
Proof.
  destruct (list_membranes_run p c r) as (l & Hrun & Hl).
  exists l. rewrite Hrun. fields.
  split; [reflexivity|]. split; [reflexivity|].
  split; [|split; [|exact Hl]].
  - revert Hrun. unfold list_membranes. run_store. intros [= <-].
    destruct p, c; repeat (etrans; [apply sublist_filter|]); done.
  - intros -> ->. revert Hrun. unfold list_membranes. run_store.
    by intros [= <-].
Qed.

(** Every path that writes the table keeps each record under its own id:
    [register], [deregister], [heartbeat], the sweep, the [/peer-sync]
    handler and the load of the state file. *)
Theorem records_stay_under_their_id r :
  keyed_by_id (membranes r) ->
  (forall m, keyed_by_id (membranes (register_membrane m r).2))
  /\ (forall i, keyed_by_id (membranes (deregister_membrane i r).2))
  /\ (forall i, keyed_by_id (membranes (heartbeat i r).2))
  /\ (forall now, keyed_by_id (membranes (sweep now r).2))
  /\ (forall b, keyed_by_id (membranes (_handle_peer_sync b r).2))
  /\ keyed_by_id (membranes (_load_state r).2).
Proof.
  intros H. split; [intros m; by apply keyed_by_id_register|].
  by apply keyed_by_id_kept.
Qed.

Lemma records_stay_under_their_id_witness :
  id (set_status "active" (set_last_heartbeat 100 m1)) = "m1".
Proof.
  refine (proj1 (proj2 (proj2 (records_stay_under_their_id with_m1 _)))
            "m1" "m1" _ _).
  - intros k x. unfold with_m1, fresh. cbn [membranes set_membranes].
    rewrite lookup_insert. case_decide as E; [|by rewrite lookup_empty].
    intros [= <-]. by rewrite <- E.
  - rewrite heartbeat_run. unfold with_m1, fresh. cbn [membranes set_membranes].
    rewrite lookup_insert_eq. cbn [snd membranes set_membranes record_event tick].
    rewrite !lookup_alter_eq, lookup_insert_eq. reflexivity.
Defined.

(** ** Saving and loading again *)

Lemma load_prefix_asdict l acc :
  load_prefix (EObject <$> (asdict <$> l)) acc
  = foldl (fun a m => <[id m := m]> a) acc l.
Proof.
  revert acc. induction l as [|m l IH]; intros acc; [done|].
  cbn [fmap list_fmap load_prefix foldl]. rewrite init_asdict. apply IH.
Qed.

Lemma forallb_loadable_asdict l :
  forallb loadable (EObject <$> (asdict <$> l)) = true.
Proof.
  induction l as [|m l IH]; [done|].
  cbn [fmap list_fmap forallb loadable]. by rewrite init_asdict.
Qed.

(** Inserting records with distinct ids one after the other. *)
Lemma foldl_insert_distinct (l : list MembraneInfo)
    (acc : gmap string MembraneInfo) :
  NoDup (id <$> l) ->
  foldl (fun a m => <[id m := m]> a) acc l
  = list_to_map ((fun m => (id m, m)) <$> l) ∪ acc.
Proof.
  revert acc. induction l as [|m l IH]; intros acc Hnd.
  - cbn. by rewrite (left_id_L ∅ (∪)).
  - rewrite fmap_cons in Hnd. apply NoDup_cons in Hnd as [Hm Hnd].
    rewrite fmap_cons, list_to_map_cons. cbn [foldl]. rewrite IH by done.
    rewrite <- insert_union_l. symmetry. apply insert_union_r.
    apply not_elem_of_list_to_map_1.
    by rewrite <- list_fmap_compose.
Qed.

Lemma values_keyed ms :
  keyed_by_id ms -> (fun m => (id m, m)) <$> values ms = map_to_list ms.
Proof.
  intros H. unfold values. rewrite <- list_fmap_compose.
  rewrite <- (list_fmap_id (map_to_list ms)) at 2.
  apply list_fmap_ext. intros n [k m] Hin.
  apply list_elem_of_lookup_2, elem_of_map_to_list, H in Hin.
  cbn. by rewrite Hin.
Qed.

Lemma load_values ms :
  keyed_by_id ms ->
  load_prefix (EObject <$> (asdict <$> values ms)) ∅ = ms.
Proof.
  intros H. rewrite load_prefix_asdict, foldl_insert_distinct.
  - rewrite values_keyed by done.
    by rewrite list_to_map_to_list, (right_id_L ∅ (∪)).
  - replace (id <$> values ms) with ((map_to_list ms).*1).
    + apply NoDup_fst_map_to_list.
    + rewrite <- (values_keyed ms H), <- list_fmap_compose. reflexivity.
Qed.

(** A registry started on the file that [_save_state] wrote holds the same
    table, statuses and timestamps included, and the same peers, provided
    the write went through and every record sat under its own id. *)
Theorem save_then_load_round_trip r rid p hb ci mode clk :
  keyed_by_id (membranes r) ->
  fs r = WriteOk ->
  let restarted :=
    NamespaceRegistry_init rid p hb ci true (state_file (_save_state r).2)
      mode clk in
  restarted.1 = Ok tt
  /\ membranes restarted.2 = membranes r
  /\ peers restarted.2 = peers r.
Proof.
  intros Hk Hfs restarted. subst restarted.
  fold (saved r). rewrite saved_state_file, Hfs.
  unfold NamespaceRegistry_init, snapshot.
  destruct (load_state_never_raises_aux
              (blank rid p hb ci
                 (StateDoc (EObject <$> (asdict <$> values (membranes r)))
                    (peers r) (Some (clock r (ticks r)))) mode clk))
    as (-> & -> & ->).
  unfold blank. cbn [state_file membranes peers].
  rewrite forallb_loadable_asdict, load_values by done. done.
Qed.

Lemma save_then_load_round_trip_witness :
  membranes
    (NamespaceRegistry_init "default" 8765 30 60 true
       (state_file (_save_state with_m1).2) WriteOk (fun _ => 0)).2
  = membranes with_m1.
Proof.
  refine (proj1 (proj2
    (save_then_load_round_trip with_m1 "default" 8765 30 60 WriteOk
       (fun _ => 0) _ _))).
  - intros k x. unfold with_m1, fresh. cbn [membranes set_membranes].
    rewrite lookup_insert. case_decide as E; [|by rewrite lookup_empty].
    intros [= <-]. by rewrite <- E.
  - reflexivity.
Defined.

(** ** More on the sweeper *)

Lemma sweep_fields now r :
  heartbeat_interval (sweep now r).2 = heartbeat_interval r
  /\ peers (sweep now r).2 = peers r
  /\ state_file (sweep now r).2
     = (if bool_decide (stale_ids now (heartbeat_interval r) (membranes r) = [])
        then state_file r
        else match fs r with
             | WriteOk =>
                 snapshot (membranes (sweep now r).2) (peers r)
                   (clock r (ticks r))
             | OpenFails => state_file r
             | DumpFails => Unreadable
             end).
Proof.
  rewrite sweep_run. fields.
  destruct (swept_fields now (record_event Acquire r)) as (-> & -> & -> & -> & _).
  fields. repeat split; reflexivity.
Qed.

Lemma stale_ids_nil now interval (ms : gmap string MembraneInfo) :
  (forall k m, ms !! k = Some m -> overdue now interval 2 m = false) ->
  stale_ids now interval ms = [].
Proof.
  intros H. unfold stale_ids.
  replace (filter (fun kv => overdue now interval 2 kv.2 = true) (map_to_list ms))
    with (@nil (string * MembraneInfo)); [done|].
  symmetry. apply elem_of_nil_inv. intros [k m] [Ho Hin]%list_elem_of_filter.
  apply elem_of_map_to_list, H in Hin. cbn [snd] in Ho. congruence.
Qed.

(** With a non-negative [heartbeat_interval], a sweep that finds no record
    silent for more than two intervals changes nothing: the table and the
    state file are as before and the file is not written. *)
Theorem sweep_without_stale_records now r :
  0 <= heartbeat_interval r ->
  (forall k m, membranes r !! k = Some m ->
     now - last_heartbeat m <= heartbeat_interval r * 2) ->
  membranes (sweep now r).2 = membranes r
  /\ state_file (sweep now r).2 = state_file r
  /\ new_events r (sweep now r).2
     = [Acquire; ReadTable; WriteTable; ReadTable; WriteTable; Release].
Proof.
  intros HH Hfresh.
  assert (Hst : stale_ids now (heartbeat_interval r) (membranes r) = []).
  { apply stale_ids_nil. intros k m Hk. apply Hfresh in Hk.
    unfold overdue. apply bool_decide_eq_false_2. lia. }
  destruct (sweep_fields now r) as (_ & _ & ->).
  rewrite sweep_events, Hst, bool_decide_eq_true_2 by done.
  split; [|done]. apply map_eq. intros k. rewrite sweep_lookup.
  destruct (membranes r !! k) as [m|] eqn:Hk; [|done].
  apply Hfresh in Hk. unfold overdue, mark_unhealthy, overdue.
  rewrite !bool_decide_eq_false_2 by lia. done.
Qed.

Lemma sweep_without_stale_records_witness :
  membranes (sweep 50 with_m1).2 = membranes with_m1.
Proof.
  refine (proj1 (sweep_without_stale_records 50 with_m1 _ _)).
  - vm_compute. discriminate.
  - intros k m. unfold with_m1, fresh. cbn [membranes set_membranes heartbeat_interval].
    rewrite lookup_insert. case_decide; [|by rewrite lookup_empty].
    intros [= <-]. vm_compute. discriminate.
Defined.

(** Sweeping twice at the same time is sweeping once: the second sweep
    finds the table as the first left it. *)
Theorem sweep_idempotent now r :
  membranes (sweep now (sweep now r).2).2 = membranes (sweep now r).2.
Proof.
  apply map_eq. intros k. rewrite sweep_lookup.
  destruct (sweep_fields now r) as (-> & _).
  rewrite sweep_lookup.
  destruct (membranes r !! k) as [m|]; [|done].
  destruct (overdue now (heartbeat_interval r) 5 m) eqn:H5; [done|].
  rewrite overdue_mark, H5. f_equal.
  unfold mark_unhealthy.
  destruct (overdue now (heartbeat_interval r) 2 m) eqn:H2.
  - replace (overdue now (heartbeat_interval r) 2 (set_status "unhealthy" m))
      with (overdue now (heartbeat_interval r) 2 m) by reflexivity.
    rewrite H2. reflexivity.
  - by rewrite H2.
Qed.

(** A heartbeat brings a record back: whatever its status was, after a
    heartbeat a sweep made no later than two intervals after it finds the
    record in the table and leaves it active. *)
Theorem heartbeat_then_sweep_active r i m now :
  membranes r !! i = Some m ->
  0 <= heartbeat_interval r ->
  now - clock r (ticks r) <= heartbeat_interval r * 2 ->
  membranes (sweep now (heartbeat i r).2).2 !! i
  = Some (set_status "active" (set_last_heartbeat (clock r (ticks r)) m)).
Proof.
  intros Hm HH Hnow. rewrite sweep_lookup, heartbeat_run, Hm. fields.
  rewrite !lookup_alter_eq, Hm. cbn [fmap option_fmap option_map].
  unfold overdue, mark_unhealthy, overdue. cbn [last_heartbeat set_status set_last_heartbeat].
  rewrite !bool_decide_eq_false_2 by lia. done.
Qed.

Lemma heartbeat_then_sweep_active_witness :
  membranes (sweep 150 (heartbeat "m1" with_m1).2).2 !! "m1"
  = Some (set_status "active" (set_last_heartbeat 100 m1)).
Proof.
  refine (heartbeat_then_sweep_active with_m1 "m1" m1 150 _ _ _).
  - unfold with_m1. cbn [membranes set_membranes]. apply lookup_insert_eq.
  - vm_compute. discriminate.
  - vm_compute. discriminate.
Defined.

(** The worker loop never raises, whatever the intervals and the disk.  With
    a negative [cleanup_interval] a pass does nothing at all: [time.sleep]
    refuses the length, the failure is swallowed, and the pass neither waits
    nor sweeps, so stale records are never marked or removed. *)
Theorem cleanup_worker_never_raises fuel r :
  (_cleanup_worker fuel r).1 = Ok tt
  /\ (cleanup_interval r < 0 -> _cleanup_worker fuel r = (Ok tt, r)).
Proof.
  split.
  - revert r. induction fuel as [|fuel IH]; intros r; [done|].
    cbn [_cleanup_worker]. unfold bind at 1, gets at 1.
    destruct (running r); [|done].
    assert (H : _cleanup_pass r = (Ok tt, (_cleanup_pass r).2)).
    { unfold _cleanup_pass, try_except, bind, gets, time_sleep, time_time.
      destruct (cleanup_interval r <? 0); [reflexivity|].
      unfold emit, modify. cbn [fst snd]. rewrite sweep_run. reflexivity. }
    rewrite (bind_ok _ _ _ _ _ H). apply IH.
  - intros Hneg. induction fuel as [|fuel IH]; [done|].
    cbn [_cleanup_worker]. unfold bind at 1, gets at 1.
    destruct (running r); [|done].
    assert (H : _cleanup_pass r = (Ok tt, r)).
    { unfold _cleanup_pass, try_except, bind, gets, time_sleep.
      destruct (Z.ltb_spec (cleanup_interval r) 0); [reflexivity|lia]. }
    by rewrite (bind_ok _ _ _ _ _ H).
Qed.

Lemma cleanup_worker_never_raises_witness :
  (_cleanup_worker 3 with_m1).1 = Ok tt.
Proof. exact (proj1 (cleanup_worker_never_raises 3 with_m1)). Defined.

(** ** The HTTP handlers *)



(** What [/peer-sync] does to the table for a body, if it accepts it. *)
Lemma handle_peer_sync_run b r :
  (exists e, _handle_peer_sync b r = (Ok (SendError 400 (StrOf e)), r))
  \/ _handle_peer_sync b r = (Ok (SendJson (Success true)), r)
  \/ exists f,
       _handle_peer_sync b r
       = (Ok (SendJson (Success true)),
          set_membranes f (record_event WriteTable r)).
Proof.
  unfold _handle_peer_sync, try_except, bind, _read_json, construct, entry_id,
    write_membranes, emit, modify, ret, raise.
  destruct b as [| |kw|[action|] [[kw|]|]|complete];
    try (left; eexists; reflexivity).
  - case_bool_decide; [|case_bool_decide].
    + destruct (MembraneInfo_init kw) as [m|x];
        [right; right; eexists; reflexivity|left; eexists; reflexivity].
    + destruct (kw_id kw);
        [right; right; eexists; reflexivity|left; eexists; reflexivity].
    + right; left; reflexivity.
  - case_bool_decide; [left; eexists; reflexivity|].
    case_bool_decide; [left; eexists; reflexivity|right; left; reflexivity].
Qed.



(** A registration whose id is a list is refused with status 400 from
    inside [register_membrane]: the lock was taken and released and the
    clock was read twice, and the table is as before. *)
Example register_with_unhashable_id :
  let out := do_POST "/register" (UnhashableId true) fresh in
  out.1 = Ok (SendError 400 (StrOf TypeError))
  /\ new_events fresh out.2 = [Acquire; Release]
  /\ ticks out.2 = 2%nat
  /\ membranes out.2 = membranes fresh.
Proof. repeat split. Qed.

(** The [/peer-sync] handler never tells a peer and never writes the state
    file, whatever the body: what it receives is not propagated further and
    not persisted. *)
Theorem peer_sync_stays_local b r :
  Forall (fun e => ~ outward e) (new_events r (_handle_peer_sync b r).2)
  /\ peers (_handle_peer_sync b r).2 = peers r
  /\ state_file (_handle_peer_sync b r).2 = state_file r.
Proof.
  destruct (handle_peer_sync_run b r) as [[e ->]|[->|[f ->]]]; fields.
  - rewrite (new_events_app r r []) by (by rewrite app_nil_r). done.
  - rewrite (new_events_app r r []) by (by rewrite app_nil_r). done.
  - rewrite (new_events_app r _ [WriteTable]) by (fields; done).
    repeat split; try done. repeat constructor. intros [].
Qed.

(** A peer added with [add_peer_registry] is told of every later
    registration, with the record exactly as the registry stored it, server
    stamps included; and of every later deregistration that found its id. *)
Theorem added_peer_is_told k endpoint m i r :
  let r1 := (add_peer_registry k endpoint r).2 in
  In (PeerSend endpoint "register" (asdict (stamped (clock r) (ticks r) m)))
     (new_events r1 (register_membrane m r1).2)
  /\ (is_Some (membranes r !! i) ->
      In (PeerSend endpoint "deregister" (id_only i))
         (new_events r1 (deregister_membrane i r1).2)).
Proof.
  intros r1.
  assert (Hp : (k, endpoint) ∈ map_to_list (peers r1)).
  { apply elem_of_map_to_list. subst r1. unfold add_peer_registry, with_lock,
      finally, bind, emit, modify. cbn [snd peers set_peers record_event].
    apply lookup_insert_eq. }
  assert (Hs : forall action data,
             In (PeerSend endpoint action data)
                (sends action data (map_to_list (peers r1)))).
  { intros action data. apply list_elem_of_In. unfold sends.
    apply (list_elem_of_fmap_2 (fun p => PeerSend p.2 action data) _ _ Hp). }
  assert (Hc : clock r1 = clock r /\ ticks r1 = ticks r
               /\ membranes r1 = membranes r) by done.
  destruct Hc as (Hc & Ht & Hm).
  split.
  - rewrite register_membrane_events, Hc, Ht.
    apply in_or_app. right. apply in_or_app. right. apply in_or_app. left.
    apply Hs.
  - intros [x Hx]. rewrite deregister_membrane_events, Hm, Hx.
    apply in_or_app. right. apply in_or_app. right. apply in_or_app. left.
    apply Hs.
Qed.

Lemma added_peer_is_told_witness :
  In (PeerSend "http://c:8765" "deregister" (id_only "m1"))
     (new_events (add_peer_registry "c" "http://c:8765" with_m1).2
        (deregister_membrane "m1"
           (add_peer_registry "c" "http://c:8765" with_m1).2).2).
Proof.
  refine (proj2 (added_peer_is_told "c" "http://c:8765" m1 "m1" with_m1) _).
  exists m1. unfold with_m1. cbn [membranes set_membranes].
  apply lookup_insert_eq.
Defined.

Lemma handle_discover_run i r :
  _handle_discover i r
  = (Ok match membranes r !! i with
        | Some m => SendJson (Membrane (asdict m))
        | None => SendError 404 (Text "Membrane not found")
        end,
     (discover_membrane i r).2).
Proof.
  unfold _handle_discover, try_except. unfold bind at 1.
  rewrite discover_membrane_run. by destruct (membranes r !! i).
Qed.

Lemma handle_status_run r :
  _handle_status r
  = (Ok (SendJson
           (Status (registry_id r) (size (membranes r)) (size (peers r))
              (clock r (ticks r)
               - match membranes r !! registry_id r with
                 | Some m => registered_at m
                 | None => clock r (S (ticks r))
                 end))),
     record_event ReadTable (tick (tick (record_event ReadTable r)))).
Proof. reflexivity. Qed.

Lemma handle_list_run parse_qs path r :
  exists response,
    _handle_list parse_qs path r = (Ok response, r)
    \/ _handle_list parse_qs path r
       = (Ok response,
          record_event Release (record_event ReadTable (record_event Acquire r))).
Proof.
  unfold _handle_list, try_except, first_value. cbv zeta.
  set (q := parse_qs _).
  destruct (q !! "parent") as [[|p ps]|];
    try (eexists; left; reflexivity);
    (destruct (q !! "communication_mode") as [[|c cs]|];
     try (eexists; left; reflexivity)).
  all: unfold bind at 1; unfold ret at 1; unfold bind at 1; unfold ret at 1;
    unfold bind at 1;
    match goal with |- context [list_membranes ?a ?b ?s] =>
      destruct (list_membranes_run a b s) as (l & -> & _)
    end; eexists; right; reflexivity.
Qed.

Lemma last_segment_discover_path i :
  last_segment "/" ("/discover/" +:+ i)
  = if contains "/" i then last_segment "/" i else i.
Proof. reflexivity. Qed.

(** A GET never raises and never changes the table, the peers or the state
    file, whatever the path. *)
Theorem get_changes_nothing parse_qs path r :
  exists response,
    (do_GET parse_qs path r).1 = Ok response
    /\ membranes (do_GET parse_qs path r).2 = membranes r
    /\ peers (do_GET parse_qs path r).2 = peers r
    /\ state_file (do_GET parse_qs path r).2 = state_file r.
Proof.
  unfold do_GET. case_bool_decide; [|destruct (String.prefix _ _)];
    [| |case_bool_decide].
  - rewrite handle_status_run. eexists. fields. repeat split; reflexivity.
  - rewrite handle_discover_run, discover_membrane_run. eexists. fields.
    repeat split; reflexivity.
  - destruct (handle_list_run parse_qs path r) as [response [-> | ->]];
      exists response; fields; repeat split; reflexivity.
  - eexists. repeat split; reflexivity.
Qed.

(** [/discover/<id>] looks up the last segment of the path.  For an id
    without a slash that is the id itself: after a registration that
    [/register] accepted, [/discover/<id>] answers with the record as the
    registry stored it (same endpoint, mode, parent and metadata, server
    stamps), and for an id that is not registered it answers 404. *)
Theorem discover_after_register parse_qs b m r :
  accepted b = Some m ->
  contains "/" (id m) = false ->
  let r1 := (_handle_register b r).2 in
  (do_GET parse_qs ("/discover/" +:+ id m) r1).1
  = Ok (SendJson (Membrane (asdict (stamped (clock r) (ticks r) m))))
  /\ forall i, contains "/" i = false -> membranes r1 !! i = None ->
       (do_GET parse_qs ("/discover/" +:+ i) r1).1
       = Ok (SendError 404 (Text "Membrane not found")).
Proof.
  intros Hb Hid r1.
  assert (Hroute : forall i, contains "/" i = false ->
            do_GET parse_qs ("/discover/" +:+ i) r1 = _handle_discover i r1).
  { intros i Hi. unfold do_GET.
    rewrite bool_decide_eq_false_2 by discriminate.
    change (String.prefix "/discover/" ("/discover/" +:+ i)) with (String.prefix "" i).
    rewrite last_segment_discover_path, Hi.
    by destruct i. }
  split.
  - rewrite (Hroute _ Hid), handle_discover_run. subst r1.
    rewrite handle_register_run by (by eapply accepted_hashable).
    rewrite Hb, snd_pair.
    destruct (register_membrane_fields m r) as (-> & _).
    by rewrite lookup_insert_eq.
  - intros i Hi Hn. by rewrite (Hroute _ Hi), handle_discover_run, Hn.
Qed.

Lemma discover_after_register_witness :
  (do_GET (fun _ => ∅) ("/discover/" +:+ "m1")
     (_handle_register (Fields (asdict m1)) fresh).2).1
  = Ok (SendJson (Membrane (asdict (stamped (clock fresh) 0 m1)))).
Proof.
  refine (proj1 (discover_after_register (fun _ => ∅) (Fields (asdict m1)) m1
                   fresh _ _)); reflexivity.
Defined.

(** [/status] counts the records and the peers.  Its [uptime] is the clock
    reading minus the [registered_at] of the membrane registered under the
    registry's own id; when there is none, it is the reading minus a later
    reading, so it is never positive on a clock that does not run
    backwards. *)
Theorem status_uptime_without_own_record r :
  membranes r !! registry_id r = None ->
  clock r (ticks r) <= clock r (S (ticks r)) ->
  exists uptime,
    (_handle_status r).1
    = Ok (SendJson (Status (registry_id r) (size (membranes r))
                      (size (peers r)) uptime))
    /\ uptime <= 0.
Proof.
  intros Hn Hc. rewrite handle_status_run, Hn. eexists.
  split; [reflexivity|]. lia.
Qed.

Lemma status_uptime_without_own_record_witness :
  exists uptime,
    (_handle_status with_m1).1
    = Ok (SendJson (Status "default" (size (membranes with_m1))
                      (size (peers with_m1)) uptime))
    /\ uptime <= 0.
Proof.
  refine (status_uptime_without_own_record with_m1 _ _).
  - reflexivity.
  - vm_compute. discriminate.
Defined.

End RegistryFacts.

(** * Properties of the client *)

Module ClientFacts.
Import Client.

(** ** Projections through the setters *)

Create Rewrite HintDb cproj.

Lemma c_membrane_id_record_event e c : membrane_id (record_event e c) = membrane_id c.
Proof. reflexivity. Qed.
Lemma c_registry_url_record_event e c : registry_url (record_event e c) = registry_url c.
Proof. reflexivity. Qed.
Lemma c_auto_heartbeat_record_event e c : auto_heartbeat (record_event e c) = auto_heartbeat c.
Proof. reflexivity. Qed.
Lemma c_heartbeat_interval_record_event e c : heartbeat_interval (record_event e c) = heartbeat_interval c.
Proof. reflexivity. Qed.
Lemma c_heartbeat_thread_record_event e c : heartbeat_thread (record_event e c) = heartbeat_thread c.
Proof. reflexivity. Qed.
Lemma c_heartbeat_running_record_event e c : heartbeat_running (record_event e c) = heartbeat_running c.
Proof. reflexivity. Qed.
Lemma c_network_record_event e c : network (record_event e c) = network c.
Proof. reflexivity. Qed.
Lemma c_requests_record_event e c : requests (record_event e c) = requests c.
Proof. reflexivity. Qed.
Lemma c_clock_record_event e c : clock (record_event e c) = clock c.
Proof. reflexivity. Qed.
Lemma c_ticks_record_event e c : ticks (record_event e c) = ticks c.
Proof. reflexivity. Qed.
Lemma c_trace_record_event e c : trace (record_event e c) = trace c ++ [e].
Proof. reflexivity. Qed.
Lemma c_membrane_id_tick  c : membrane_id (tick c) = membrane_id c.
Proof. reflexivity. Qed.
Lemma c_registry_url_tick  c : registry_url (tick c) = registry_url c.
Proof. reflexivity. Qed.
Lemma c_auto_heartbeat_tick  c : auto_heartbeat (tick c) = auto_heartbeat c.
Proof. reflexivity. Qed.
Lemma c_heartbeat_interval_tick  c : heartbeat_interval (tick c) = heartbeat_interval c.
Proof. reflexivity. Qed.
Lemma c_heartbeat_thread_tick  c : heartbeat_thread (tick c) = heartbeat_thread c.
Proof. reflexivity. Qed.
Lemma c_heartbeat_running_tick  c : heartbeat_running (tick c) = heartbeat_running c.
Proof. reflexivity. Qed.
Lemma c_network_tick  c : network (tick c) = network c.
Proof. reflexivity. Qed.
Lemma c_requests_tick  c : requests (tick c) = requests c.
Proof. reflexivity. Qed.
Lemma c_clock_tick  c : clock (tick c) = clock c.
Proof. reflexivity. Qed.
Lemma c_ticks_tick  c : ticks (tick c) = S (ticks c).
Proof. reflexivity. Qed.
Lemma c_trace_tick  c : trace (tick c) = trace c.
Proof. reflexivity. Qed.
Lemma c_membrane_id_next_request  c : membrane_id (next_request c) = membrane_id c.
Proof. reflexivity. Qed.
Lemma c_registry_url_next_request  c : registry_url (next_request c) = registry_url c.
Proof. reflexivity. Qed.
Lemma c_auto_heartbeat_next_request  c : auto_heartbeat (next_request c) = auto_heartbeat c.
Proof. reflexivity. Qed.
Lemma c_heartbeat_interval_next_request  c : heartbeat_interval (next_request c) = heartbeat_interval c.
Proof. reflexivity. Qed.
Lemma c_heartbeat_thread_next_request  c : heartbeat_thread (next_request c) = heartbeat_thread c.
Proof. reflexivity. Qed.
Lemma c_heartbeat_running_next_request  c : heartbeat_running (next_request c) = heartbeat_running c.
Proof. reflexivity. Qed.
Lemma c_network_next_request  c : network (next_request c) = network c.
Proof. reflexivity. Qed.
Lemma c_requests_next_request  c : requests (next_request c) = S (requests c).
Proof. reflexivity. Qed.
Lemma c_clock_next_request  c : clock (next_request c) = clock c.
Proof. reflexivity. Qed.
Lemma c_ticks_next_request  c : ticks (next_request c) = ticks c.
Proof. reflexivity. Qed.
Lemma c_trace_next_request  c : trace (next_request c) = trace c.
Proof. reflexivity. Qed.
Lemma c_membrane_id_set_heartbeat_running b c : membrane_id (set_heartbeat_running b c) = membrane_id c.
Proof. reflexivity. Qed.
Lemma c_registry_url_set_heartbeat_running b c : registry_url (set_heartbeat_running b c) = registry_url c.
Proof. reflexivity. Qed.
Lemma c_auto_heartbeat_set_heartbeat_running b c : auto_heartbeat (set_heartbeat_running b c) = auto_heartbeat c.
Proof. reflexivity. Qed.
Lemma c_heartbeat_interval_set_heartbeat_running b c : heartbeat_interval (set_heartbeat_running b c) = heartbeat_interval c.
Proof. reflexivity. Qed.
Lemma c_heartbeat_thread_set_heartbeat_running b c : heartbeat_thread (set_heartbeat_running b c) = heartbeat_thread c.
Proof. reflexivity. Qed.
Lemma c_heartbeat_running_set_heartbeat_running b c : heartbeat_running (set_heartbeat_running b c) = b.
Proof. reflexivity. Qed.
Lemma c_network_set_heartbeat_running b c : network (set_heartbeat_running b c) = network c.
Proof. reflexivity. Qed.
Lemma c_requests_set_heartbeat_running b c : requests (set_heartbeat_running b c) = requests c.
Proof. reflexivity. Qed.
Lemma c_clock_set_heartbeat_running b c : clock (set_heartbeat_running b c) = clock c.
Proof. reflexivity. Qed.
Lemma c_ticks_set_heartbeat_running b c : ticks (set_heartbeat_running b c) = ticks c.
Proof. reflexivity. Qed.
Lemma c_trace_set_heartbeat_running b c : trace (set_heartbeat_running b c) = trace c ++ [SetRunning b].
Proof. reflexivity. Qed.
Lemma c_membrane_id_set_heartbeat_thread b c : membrane_id (set_heartbeat_thread b c) = membrane_id c.
Proof. reflexivity. Qed.
Lemma c_registry_url_set_heartbeat_thread b c : registry_url (set_heartbeat_thread b c) = registry_url c.
Proof. reflexivity. Qed.
Lemma c_auto_heartbeat_set_heartbeat_thread b c : auto_heartbeat (set_heartbeat_thread b c) = auto_heartbeat c.
Proof. reflexivity. Qed.
Lemma c_heartbeat_interval_set_heartbeat_thread b c : heartbeat_interval (set_heartbeat_thread b c) = heartbeat_interval c.
Proof. reflexivity. Qed.
Lemma c_heartbeat_thread_set_heartbeat_thread b c : heartbeat_thread (set_heartbeat_thread b c) = b.
Proof. reflexivity. Qed.
Lemma c_heartbeat_running_set_heartbeat_thread b c : heartbeat_running (set_heartbeat_thread b c) = heartbeat_running c.
Proof. reflexivity. Qed.
Lemma c_network_set_heartbeat_thread b c : network (set_heartbeat_thread b c) = network c.
Proof. reflexivity. Qed.
Lemma c_requests_set_heartbeat_thread b c : requests (set_heartbeat_thread b c) = requests c.
Proof. reflexivity. Qed.
Lemma c_clock_set_heartbeat_thread b c : clock (set_heartbeat_thread b c) = clock c.
Proof. reflexivity. Qed.
Lemma c_ticks_set_heartbeat_thread b c : ticks (set_heartbeat_thread b c) = ticks c.
Proof. reflexivity. Qed.
Lemma c_trace_set_heartbeat_thread b c : trace (set_heartbeat_thread b c) = trace c.
Proof. reflexivity. Qed.
Lemma c_membrane_id_set_membrane_cache f c : membrane_id (set_membrane_cache f c) = membrane_id c.
Proof. reflexivity. Qed.
Lemma c_registry_url_set_membrane_cache f c : registry_url (set_membrane_cache f c) = registry_url c.
Proof. reflexivity. Qed.
Lemma c_auto_heartbeat_set_membrane_cache f c : auto_heartbeat (set_membrane_cache f c) = auto_heartbeat c.
Proof. reflexivity. Qed.
Lemma c_heartbeat_interval_set_membrane_cache f c : heartbeat_interval (set_membrane_cache f c) = heartbeat_interval c.
Proof. reflexivity. Qed.
Lemma c_heartbeat_thread_set_membrane_cache f c : heartbeat_thread (set_membrane_cache f c) = heartbeat_thread c.
Proof. reflexivity. Qed.
Lemma c_heartbeat_running_set_membrane_cache f c : heartbeat_running (set_membrane_cache f c) = heartbeat_running c.
Proof. reflexivity. Qed.
Lemma c_network_set_membrane_cache f c : network (set_membrane_cache f c) = network c.
Proof. reflexivity. Qed.
Lemma c_requests_set_membrane_cache f c : requests (set_membrane_cache f c) = requests c.
Proof. reflexivity. Qed.
Lemma c_clock_set_membrane_cache f c : clock (set_membrane_cache f c) = clock c.
Proof. reflexivity. Qed.
Lemma c_ticks_set_membrane_cache f c : ticks (set_membrane_cache f c) = ticks c.
Proof. reflexivity. Qed.
Lemma c_trace_set_membrane_cache f c : trace (set_membrane_cache f c) = trace c.
Proof. reflexivity. Qed.

#[local] Hint Rewrite
  c_membrane_id_record_event c_registry_url_record_event
  c_auto_heartbeat_record_event c_heartbeat_interval_record_event
  c_heartbeat_thread_record_event c_heartbeat_running_record_event
  c_network_record_event c_requests_record_event
  c_clock_record_event c_ticks_record_event
  c_trace_record_event c_membrane_id_tick
  c_registry_url_tick c_auto_heartbeat_tick
  c_heartbeat_interval_tick c_heartbeat_thread_tick
  c_heartbeat_running_tick c_network_tick
  c_requests_tick c_clock_tick
  c_ticks_tick c_trace_tick
  c_membrane_id_next_request c_registry_url_next_request
  c_auto_heartbeat_next_request c_heartbeat_interval_next_request
  c_heartbeat_thread_next_request c_heartbeat_running_next_request
  c_network_next_request c_requests_next_request
  c_clock_next_request c_ticks_next_request
  c_trace_next_request c_membrane_id_set_heartbeat_running
  c_registry_url_set_heartbeat_running c_auto_heartbeat_set_heartbeat_running
  c_heartbeat_interval_set_heartbeat_running c_heartbeat_thread_set_heartbeat_running
  c_heartbeat_running_set_heartbeat_running c_network_set_heartbeat_running
  c_requests_set_heartbeat_running c_clock_set_heartbeat_running
  c_ticks_set_heartbeat_running c_trace_set_heartbeat_running
  c_membrane_id_set_heartbeat_thread c_registry_url_set_heartbeat_thread
  c_auto_heartbeat_set_heartbeat_thread c_heartbeat_interval_set_heartbeat_thread
  c_heartbeat_thread_set_heartbeat_thread c_heartbeat_running_set_heartbeat_thread
  c_network_set_heartbeat_thread c_requests_set_heartbeat_thread
  c_clock_set_heartbeat_thread c_ticks_set_heartbeat_thread
  c_trace_set_heartbeat_thread c_membrane_id_set_membrane_cache
  c_registry_url_set_membrane_cache c_auto_heartbeat_set_membrane_cache
  c_heartbeat_interval_set_membrane_cache c_heartbeat_thread_set_membrane_cache
  c_heartbeat_running_set_membrane_cache c_network_set_membrane_cache
  c_requests_set_membrane_cache c_clock_set_membrane_cache
  c_ticks_set_membrane_cache c_trace_set_membrane_cache
  : cproj.


Ltac cfields := rewrite ?snd_pair; autorewrite with cproj.

Lemma client_new_events_app c c' evs :
  trace c' = trace c ++ evs -> new_events c c' = evs.
Proof. intros H. unfold new_events. rewrite H. apply drop_app_length. Qed.

(** ** Closed forms *)

Lemma post_success_run path data c :
  bind (_post path data) get_success c
  = (post_outcome (network c (requests c)), posted path data c).
Proof.
  unfold bind, _post, bind, gets, emit, modify, urlopen, json_loads,
    get_success, posted, post_outcome, ret, raise.
  cbn [fst snd network requests record_event].
  destruct (network c (requests c)) as [e|status doc]; [reflexivity|].
  destruct (bool_decide (200 <= status < 300)); [|reflexivity].
  destruct doc; reflexivity.
Qed.

Lemma client_heartbeat_run c :
  heartbeat c
  = (Ok (or_false (post_outcome (network c (requests c)))),
     posted "/heartbeat" (id_only (membrane_id c)) c).
Proof.
  unfold heartbeat, try_except. unfold bind at 1. unfold gets at 1.
  rewrite post_success_run.
  by destruct (post_outcome _).
Qed.

Lemma heartbeat_pass_run c :
  _heartbeat_pass c
  = (Ok tt,
     record_event
       (Sleep (if heartbeat_interval c <? 0 then 5 else heartbeat_interval c))
       (posted "/heartbeat" (id_only (membrane_id c)) c)).
Proof.
  unfold _heartbeat_pass, try_except. unfold bind at 1.
  rewrite client_heartbeat_run. unfold bind, gets, time_sleep.
  unfold posted at 1 2. cfields.
  destruct (heartbeat_interval c <? 0); reflexivity.
Qed.

Lemma stop_heartbeat_run c : _stop_heartbeat c = (Ok tt, stopped c).
Proof.
  unfold _stop_heartbeat, stopped, bind, modify, gets, when, emit, modify.
  cbn [heartbeat_thread set_heartbeat_running].
  by destruct (heartbeat_thread c).
Qed.

Lemma start_heartbeat_run c : _start_heartbeat c = (Ok tt, started c).
Proof.
  unfold _start_heartbeat, started, bind, modify, gets, emit, modify.
  by destruct (heartbeat_running c).
Qed.

Lemma stopped_fields c :
  heartbeat_running (stopped c) = false
  /\ network (stopped c) = network c
  /\ requests (stopped c) = requests c
  /\ membrane_id (stopped c) = membrane_id c
  /\ registry_url (stopped c) = registry_url c
  /\ trace (stopped c)
     = trace c ++ SetRunning false
                  :: (if heartbeat_thread c then [Join 1] else []).
Proof.
  unfold stopped. destruct (heartbeat_thread c); cfields;
    rewrite <- ?app_assoc; repeat split; reflexivity.
Qed.

Lemma deregister_run c :
  deregister c
  = (Ok (or_false (post_outcome (network c (requests c)))),
     posted "/deregister" (id_only (membrane_id c)) (stopped c)).
Proof.
  unfold deregister, try_except. unfold bind at 1.
  rewrite stop_heartbeat_run. unfold bind at 1. unfold gets at 1.
  rewrite post_success_run.
  destruct (stopped_fields c) as (_ & -> & -> & -> & _).
  by destruct (post_outcome _).
Qed.

Lemma auto_detect_endpoint_run hash mode c :
  _auto_detect_endpoint hash mode c
  = (Ok (default_endpoint hash (membrane_id c) mode), c).
Proof.
  unfold _auto_detect_endpoint, default_endpoint, bind, gets, ret.
  repeat case_bool_decide; reflexivity.
Qed.

Lemma posted_fields path data c :
  heartbeat_running (posted path data c) = heartbeat_running c
  /\ heartbeat_thread (posted path data c) = heartbeat_thread c
  /\ auto_heartbeat (posted path data c) = auto_heartbeat c
  /\ trace (posted path data c)
     = trace c ++ [Post (registry_url c +:+ path) data].
Proof. unfold posted. cfields. repeat split; reflexivity. Qed.

Lemma register_run hash p e mode md c :
  let data := registration_data hash c p e mode md in
  let c1 := posted "/register" data (tick (tick c)) in
  let success := or_false (post_outcome (network c (requests c))) in
  register hash p e mode md c
  = (Ok success,
     if success && auto_heartbeat c then started c1 else c1).
Proof.
  intros data c1 success. unfold register, try_except.
  rewrite (bind_ok _ _ c (default (default_endpoint hash (membrane_id c) mode) e) c)
    by (destruct e; [reflexivity|apply auto_detect_endpoint_run]).
  rewrite (bind_ok _ _ c (membrane_id c) c) by reflexivity.
  rewrite (bind_ok _ _ c (clock c (ticks c)) (tick c)) by reflexivity.
  rewrite (bind_ok _ _ (tick c) (clock c (S (ticks c))) (tick (tick c)))
    by reflexivity.
  fold (registration_data hash c p e mode md). fold data.
  rewrite bind_assoc.
  pose proof (post_success_run "/register" data (tick (tick c))) as H.
  fold c1 in H. rewrite !c_network_tick, !c_requests_tick in H.
  destruct (post_outcome (network c (requests c))) as [b|x] eqn:E.
  - rewrite (bind_ok _ _ _ _ _ H). subst success. cbn [or_false].
    destruct b; cbn [andb]; [|reflexivity].
    destruct (posted_fields "/register" data (tick (tick c))) as (_ & _ & Ha & _).
    fold c1 in Ha. rewrite c_auto_heartbeat_tick, c_auto_heartbeat_tick in Ha.
    unfold bind, gets, when. rewrite Ha.
    destruct (auto_heartbeat c); [|reflexivity].
    by rewrite start_heartbeat_run.
  - by rewrite (bind_raise _ _ _ _ _ H).
Qed.

(** ** Operations that leave the heartbeat flag alone *)

Lemma keeps_ret {A} (a : A) : keeps_flag (ret a).
Proof. done. Qed.

Lemma keeps_raise {A} e : keeps_flag (raise e : Cli A).
Proof. done. Qed.

Lemma keeps_gets {A} (f : NamespaceClient -> A) : keeps_flag (gets f).
Proof. done. Qed.

Lemma keeps_bind {A B} (m : Cli A) (k : A -> Cli B) :
  keeps_flag m -> (forall a, keeps_flag (k a)) -> keeps_flag (bind m k).
Proof.
  intros Hm Hk c. unfold bind. specialize (Hm c).
  destruct (m c) as [[a|e] c']; rewrite snd_pair in Hm; [|done].
  by rewrite Hk.
Qed.

Lemma keeps_try_except {A} (m : Cli A) (h : exn -> Cli A) :
  keeps_flag m -> (forall e, keeps_flag (h e)) -> keeps_flag (try_except m h).
Proof.
  intros Hm Hh c. unfold try_except. specialize (Hm c).
  destruct (m c) as [[a|e] c']; rewrite snd_pair in Hm; [done|].
  by rewrite Hh.
Qed.

Lemma keeps_emit e : keeps_flag (emit e).
Proof. done. Qed.

Lemma keeps_cache f : keeps_flag (modify (set_membrane_cache f)).
Proof. done. Qed.

Lemma keeps_time_time : keeps_flag time_time.
Proof. done. Qed.

Lemma keeps_time_sleep d : keeps_flag (time_sleep d).
Proof. unfold time_sleep. by destruct (d <? 0). Qed.

Lemma keeps_urlopen : keeps_flag urlopen.
Proof.
  intros c. unfold urlopen.
  destruct (network c (requests c)); [done|]. by case_bool_decide.
Qed.

Lemma keeps_json_loads doc : keeps_flag (json_loads doc).
Proof. by destruct doc. Qed.

Lemma keeps_get_success doc : keeps_flag (get_success doc).
Proof. by destruct doc. Qed.

(** Goals [keeps_flag m], by the structure of [m]. *)
Ltac keeps :=
  repeat first
    [ match goal with |- forall _, _ => intro end
    | apply keeps_ret | apply keeps_raise | apply keeps_gets
    | apply keeps_emit | apply keeps_cache | apply keeps_time_time
    | apply keeps_time_sleep | apply keeps_urlopen | apply keeps_json_loads
    | apply keeps_get_success
    | apply keeps_bind | apply keeps_try_except
    | match goal with
      | |- keeps_flag (match ?x with _ => _ end) => destruct x
      | |- keeps_flag (when ?b _) => destruct b; unfold when
      end
    | progress unfold endpoint_of ].

Lemma keeps_post path data : keeps_flag (_post path data).
Proof. unfold _post. keeps. Qed.

Lemma keeps_get path : keeps_flag (_get path).
Proof. unfold _get. keeps. Qed.

Lemma keeps_endpoint_of fields : keeps_flag (endpoint_of fields).
Proof. unfold endpoint_of. keeps. Qed.

Lemma keeps_collect items endpoints : keeps_flag (collect items endpoints).
Proof.
  revert endpoints. induction items as [|x items IH]; intros endpoints.
  - apply keeps_ret.
  - cbn [collect]. apply keeps_bind; [apply keeps_endpoint_of|].
    intros ep. apply keeps_bind; [apply keeps_cache|]. intros _. apply IH.
Qed.

Lemma keeps_heartbeat : keeps_flag heartbeat.
Proof. unfold heartbeat. keeps. Qed.

Lemma keeps_discover target use_cache : keeps_flag (discover target use_cache).
Proof.
  unfold discover. keeps.
Qed.

Lemma keeps_list_membranes urlencode p m :
  keeps_flag (list_membranes urlencode p m).
Proof.
  unfold list_membranes. cbv zeta.
  keeps. apply keeps_collect.
Qed.

Lemma keeps_send_message target message :
  keeps_flag (send_message target message).
Proof.
  unfold send_message, _send_shared_volume, _send_network, _send_ipc. cbv zeta.
  keeps.
Qed.

Lemma keeps_heartbeat_pass : keeps_flag _heartbeat_pass.
Proof. unfold _heartbeat_pass. keeps. Qed.

Lemma keeps_heartbeat_worker fuel : keeps_flag (_heartbeat_worker fuel).
Proof.
  induction fuel as [|fuel IH]; [apply keeps_ret|].
  cbn [_heartbeat_worker]. keeps. apply IH.
Qed.

(** ** Concrete inputs *)

Example rstrip_url : rstrip "/" "http://localhost:8765//" = "http://localhost:8765".
Proof. reflexivity. Qed.

Example rstrip_inner : rstrip "/" "a/b/" = "a/b".
Proof. reflexivity. Qed.

Example default_endpoint_shared :
  default_endpoint hash_of_run_a "m1" "shared-volume"
  = "/opt/membrane/communication/inbox/m1".
Proof. reflexivity. Qed.

Example default_endpoint_ipc :
  default_endpoint hash_of_run_a "m1" "ipc" = "/tmp/membrane_m1.sock".
Proof. reflexivity. Qed.

(** The registry builds a record from the body the client's [register]
    posts. *)
Lemma registration_data_accepted hash c p e mode md :
  exists m,
    Registry.MembraneInfo_init (registration_data hash c p e mode md) = Ok m
    /\ Registry.id m = membrane_id c
    /\ Registry.communication_mode m = mode
    /\ Registry.status m = "active".
Proof. eexists. split; [reflexivity|]. repeat split. Qed.

(** ** The heartbeat loop *)

(** C7.  One pass of the heartbeat loop with a non-negative
    [heartbeat_interval] posts one heartbeat and then sleeps
    [heartbeat_interval] seconds, whatever the outcome of the attempt:
    [heartbeat()] turns every failure into [False] and never raises, so a
    failed attempt does not reach the branch that sleeps 5 seconds. *)
Theorem heartbeat_pass_sleeps_the_interval c :
  0 <= heartbeat_interval c ->
  (heartbeat c).1 = Ok (or_false (post_outcome (network c (requests c))))
  /\ new_events c (_heartbeat_pass c).2
     = [Post (registry_url c +:+ "/heartbeat") (id_only (membrane_id c));
        Sleep (heartbeat_interval c)].
Proof.
  intros H. rewrite client_heartbeat_run, heartbeat_pass_run.
  split; [reflexivity|]. apply client_new_events_app. cfields.
  destruct (posted_fields "/heartbeat" (id_only (membrane_id c)) c)
    as (_ & _ & _ & ->).
  destruct (Z.ltb_spec (heartbeat_interval c) 0); [lia|].
  by rewrite <- app_assoc.
Qed.

Lemma heartbeat_pass_sleeps_the_interval_witness :
  (heartbeat unreachable).1 = Ok false
  /\ new_events unreachable (_heartbeat_pass unreachable).2
     = [Post "http://localhost:8765/heartbeat" (id_only "m1"); Sleep 25].
Proof.
  refine (heartbeat_pass_sleeps_the_interval unreachable _).
  vm_compute. discriminate.
Defined.

(** ** Default endpoints *)

(** Within one run of the program, that is for one string hash [hash], the
    default endpoint depends on the membrane id and the mode only.  For the
    network mode it is [http://localhost:] followed by the port
    [9000 + hash(id) mod 1000], which lies between 9000 and 9999.  For every
    other mode it does not depend on the hash.  It is the endpoint [register]
    posts when it is given none. *)
Theorem default_endpoint_in_one_run hash mode c1 c2 :
  membrane_id c1 = membrane_id c2 ->
  (_auto_detect_endpoint hash mode c1).1 = (_auto_detect_endpoint hash mode c2).1
  /\ (exists port,
        9000 <= port < 10000
        /\ port = 9000 + hash (membrane_id c1) `mod` 1000
        /\ (_auto_detect_endpoint hash "network" c1).1
           = Ok ("http://localhost:" +:+ pretty port))
  /\ (mode <> "network" ->
      forall hash',
        (_auto_detect_endpoint hash' mode c1).1
        = (_auto_detect_endpoint hash mode c1).1)
  /\ (forall p md, exists data,
        new_events c1 (register hash p None mode md c1).2
        = Post (registry_url c1 +:+ "/register") data
          :: (if or_false (post_outcome (network c1 (requests c1)))
                 && auto_heartbeat c1 && negb (heartbeat_running c1)
              then [SetRunning true; StartThread] else [])
        /\ Ok <$> kw_endpoint data = Some (_auto_detect_endpoint hash mode c1).1).
Proof.
  intros Hid. rewrite !auto_detect_endpoint_run. cbn [fst].
  split; [by rewrite Hid|]. split; [|split].
  - eexists. split; [|split; reflexivity].
    pose proof (Z.mod_pos_bound (hash (membrane_id c1)) 1000). lia.
  - intros Hm hash'. rewrite auto_detect_endpoint_run. cbn [fst].
    unfold default_endpoint. by rewrite (bool_decide_eq_false_2 _ Hm).
  - intros p md. exists (registration_data hash c1 p None mode md).
    split; [|reflexivity]. apply client_new_events_app.
    rewrite register_run, snd_pair.
    destruct (posted_fields "/register" (registration_data hash c1 p None mode md)
                (tick (tick c1))) as (Hr & _ & _ & Ht).
    cfields. rewrite !c_trace_tick, !c_registry_url_tick in Ht.
    rewrite !c_heartbeat_running_tick in Hr.
    destruct (or_false _ && auto_heartbeat c1); cbn [andb].
    + unfold started. rewrite Hr.
      destruct (heartbeat_running c1); cbn [negb]; cfields; rewrite Ht;
        rewrite <- ?app_assoc; reflexivity.
    + by rewrite Ht.
Qed.

Lemma default_endpoint_in_one_run_witness :
  (_auto_detect_endpoint hash_of_run_a "network" unreachable).1
  = (_auto_detect_endpoint hash_of_run_a "network"
       (set_heartbeat_running true unreachable)).1.
Proof.
  refine (proj1 (default_endpoint_in_one_run hash_of_run_a "network"
                   unreachable (set_heartbeat_running true unreachable) _)).
  reflexivity.
Defined.

(** C9.  The network endpoint is not a function of the id and the mode
    alone: its port is [9000 + hash(id) mod 1000] for the string hash of the
    running interpreter, so two runs derive the same endpoint for an id
    exactly when their hashes of the id agree modulo 1000.  Every other mode
    gives the same endpoint whatever the hash.  [register] posts the
    endpoint so derived when it is given none. *)
Theorem network_endpoint_follows_the_hash hash1 hash2 c :
  let mid := membrane_id c in
  let e1 := (_auto_detect_endpoint hash1 "network" c).1 in
  let e2 := (_auto_detect_endpoint hash2 "network" c).1 in
  e1 = Ok ("http://localhost:" +:+ pretty (9000 + hash1 mid `mod` 1000))
  /\ e2 = Ok ("http://localhost:" +:+ pretty (9000 + hash2 mid `mod` 1000))
  /\ (e1 = e2 <-> hash1 mid `mod` 1000 = hash2 mid `mod` 1000)
  /\ (forall mode, mode <> "network" ->
        (_auto_detect_endpoint hash1 mode c).1
        = (_auto_detect_endpoint hash2 mode c).1)
  /\ (forall p md,
        Ok <$> kw_endpoint (registration_data hash1 c p None "network" md)
        = Some e1).
Proof.
  intros mid e1 e2. subst e1 e2.
  rewrite !auto_detect_endpoint_run. cbn [fst].
  assert (Hnet : forall hash,
            default_endpoint hash mid "network"
            = "http://localhost:" +:+ pretty (9000 + hash mid `mod` 1000))
    by reflexivity.
  rewrite !Hnet. repeat split.
  - intros [= H]. apply (inj (String.app _)), (inj pretty) in H. lia.
  - by intros ->.
  - intros mode Hm. rewrite !auto_detect_endpoint_run. cbn [fst].
    unfold default_endpoint. by rewrite (bool_decide_eq_false_2 _ Hm).
Qed.

(** C9, two runs: a client with the id ["m1"] derives port 9398 in a run
    started with hash seed 1 and port 9837 in a run started with seed 2. *)
Lemma network_endpoint_follows_the_hash_witness :
  (_auto_detect_endpoint hash_of_run_a "network" unreachable).1
  = Ok "http://localhost:9398"
  /\ (_auto_detect_endpoint hash_of_run_b "network" unreachable).1
     = Ok "http://localhost:9837".
Proof.
  split.
  - exact (proj1 (network_endpoint_follows_the_hash
                    hash_of_run_a hash_of_run_b unreachable)).
  - exact (proj1 (proj2 (network_endpoint_follows_the_hash
                           hash_of_run_a hash_of_run_b unreachable))).
Defined.

(** ** Stopping the heartbeat loop *)

Lemma deregister_fields c :
  heartbeat_running (deregister c).2 = false
  /\ trace (deregister c).2
     = trace c
       ++ SetRunning false :: (if heartbeat_thread c then [Join 1] else [])
       ++ [Post (registry_url c +:+ "/deregister") (id_only (membrane_id c))].
Proof.
  rewrite deregister_run, snd_pair.
  destruct (posted_fields "/deregister" (id_only (membrane_id c)) (stopped c))
    as (-> & _ & _ & ->).
  destruct (stopped_fields c) as (-> & _ & _ & _ & -> & ->).
  split; [reflexivity|]. by rewrite <- app_assoc.
Qed.

(** With the flag down, the loop does not run. *)
Lemma heartbeat_worker_stopped fuel c :
  heartbeat_running c = false -> _heartbeat_worker fuel c = (Ok tt, c).
Proof.
  intros H. destruct fuel; [reflexivity|].
  cbn [_heartbeat_worker]. unfold bind, gets. by rewrite H.
Qed.

(** Only a [register] that returns [True] raises the flag. *)
Lemma perform_flag hash urlencode op c :
  heartbeat_running (perform hash urlencode op c) = true ->
  heartbeat_running c = true \/ registers hash op c = true.
Proof.
  destruct op as [p e m md| |t u|p m|t msg| |fuel]; cbn [perform registers].
  - rewrite register_run, snd_pair. cbn [fst].
    destruct (or_false (post_outcome (network c (requests c)))); [by right|].
    cbn [andb].
    destruct (posted_fields "/register" (registration_data hash c p e m md)
                (tick (tick c))) as (-> & _).
    rewrite !c_heartbeat_running_tick. by left.
  - destruct (deregister_fields c) as (-> & _). discriminate.
  - rewrite keeps_discover. by left.
  - rewrite keeps_list_membranes. by left.
  - rewrite keeps_send_message. by left.
  - rewrite keeps_heartbeat. by left.
  - rewrite keeps_heartbeat_worker. by left.
Qed.

Lemma perform_all_flag hash urlencode ops c :
  heartbeat_running (perform_all hash urlencode ops c) = true ->
  heartbeat_running c = true
  \/ some_register_succeeds hash urlencode ops c = true.
Proof.
  revert c. induction ops as [|op ops IH]; intros c H; [by left|].
  cbn [perform_all some_register_succeeds] in *.
  apply IH in H as [H|H].
  - apply perform_flag in H as [H|H]; [by left|right]. by rewrite H.
  - right. rewrite H. apply orb_true_r.
Qed.

(** C10.  [deregister] lowers [heartbeat_running] (and waits at most one
    second for the thread) before it posts the request, whatever the state of
    the client.  Whatever the reply, the flag is down when [deregister]
    returns, so the loop of the worker does nothing from then on; and after
    any run of further calls and turns of the worker, the flag is up again
    only if one of the calls was a [register] that returned [True]. *)
Theorem deregister_stops_heartbeat hash urlencode c ops :
  let c' := (deregister c).2 in
  new_events c c'
  = SetRunning false :: (if heartbeat_thread c then [Join 1] else [])
    ++ [Post (registry_url c +:+ "/deregister") (id_only (membrane_id c))]
  /\ (deregister c).1 = Ok (or_false (post_outcome (network c (requests c))))
  /\ heartbeat_running c' = false
  /\ (forall fuel, _heartbeat_worker fuel c' = (Ok tt, c'))
  /\ (heartbeat_running (perform_all hash urlencode ops c') = true ->
      some_register_succeeds hash urlencode ops c' = true).
Proof.
  intros c'. destruct (deregister_fields c) as (Hflag & Htrace).
  fold c' in Hflag, Htrace.
  split; [by apply client_new_events_app|].
  split; [by rewrite deregister_run|].
  split; [done|].
  split; [intros fuel; by apply heartbeat_worker_stopped|].
  intros H. apply perform_all_flag in H as [H|H]; [congruence|done].
Qed.

Lemma deregister_stops_heartbeat_witness :
  heartbeat_running (deregister (started unreachable)).2 = false.
Proof.
  exact (proj1 (proj2 (proj2
    (deregister_stops_heartbeat hash_of_run_a (fun _ => "")
       (started unreachable) [Heartbeat; Worker 3; Discover "m2" true])))).
Defined.

(** ** Discovery and its cache *)

Lemma get_run path c :
  _get path c = (get_outcome (network c (requests c)), got path c).
Proof.
  unfold _get, bind, gets, emit, modify, urlopen, json_loads, get_outcome, got,
    ret, raise.
  cbn [fst snd network requests record_event].
  destruct (network c (requests c)) as [e|status doc]; [reflexivity|].
  destruct (bool_decide (200 <= status < 300)); [|reflexivity].
  destruct doc; reflexivity.
Qed.

Lemma endpoint_of_run fields c :
  endpoint_of fields c
  = match kw_id fields, kw_endpoint fields, kw_communication_mode fields with
    | Some i, Some e, Some m =>
        (Ok {| id := i; endpoint := e; communication_mode := m;
               metadata := default [] (kw_metadata fields);
               last_seen := clock c (ticks c) |}, tick c)
    | _, _, _ => (Raise KeyError, c)
    end.
Proof.
  unfold endpoint_of.
  destruct (kw_id fields), (kw_endpoint fields), (kw_communication_mode fields);
    reflexivity.
Qed.

Lemma try_except_bind_ok {S A B} (m : M S A) (k : A -> M S B) h s a s' :
  m s = (Ok a, s') -> try_except (bind m k) h s = try_except (k a) h s'.
Proof. unfold try_except, bind. by intros ->. Qed.

(** The request [discover] makes after the cache check, from state [c0]. *)
Lemma discover_fetch_run t c0 :
  try_except
    (bind (_get ("/discover/" +:+ t)) (fun response =>
       match response with
       | Object success fields =>
           if empty_object success fields then ret None
           else
             bind (endpoint_of fields) (fun endpoint =>
               bind (modify (set_membrane_cache (insert t endpoint)))
                    (fun _ => ret (Some endpoint)))
       | Array [] => ret None
       | Array (_ :: _) => raise TypeError
       | Other => ret None
       | Invalid => raise JSONDecodeError
       end))
    (fun _ => ret None) c0
  = fetched t c0.
Proof.
  unfold fetched, try_except, bind at 1. rewrite get_run. cbv zeta.
  destruct (get_outcome (network c0 (requests c0))) as [[s f|[|x items]| |]|x];
    try reflexivity.
  destruct (empty_object s f); [reflexivity|].
  unfold bind at 1. rewrite endpoint_of_run.
  destruct (kw_id f), (kw_endpoint f), (kw_communication_mode f); reflexivity.
Qed.

Lemma discover_run t u c :
  discover t u c
  = match (if u then membrane_cache c !! t else None) with
    | Some cached =>
        if bool_decide (clock c (ticks c) - last_seen cached < cache_ttl c)
        then (Ok (Some cached), tick c)
        else fetched t (tick c)
    | None => fetched t c
    end.
Proof.
  unfold discover.
  rewrite (try_except_bind_ok _ _ _ c (membrane_cache c) c) by reflexivity.
  rewrite (try_except_bind_ok _ _ _ c (cache_ttl c) c) by reflexivity.
  destruct (if u then membrane_cache c !! t else None) as [cached|].
  - destruct (bool_decide (clock c (ticks c) - last_seen cached < cache_ttl c))
      eqn:E.
    + rewrite (try_except_bind_ok _ _ _ c (Some cached) (tick c)); [reflexivity|].
      unfold bind, time_time, ret. by rewrite E.
    + rewrite (try_except_bind_ok _ _ _ c None (tick c)).
      * apply discover_fetch_run.
      * unfold bind, time_time, ret. by rewrite E.
  - rewrite (try_except_bind_ok _ _ _ c None c) by reflexivity.
    apply discover_fetch_run.
Qed.

Lemma fetched_cases t c0 :
  let c1 := got ("/discover/" +:+ t) c0 in
  fetched t c0 = (Ok None, c1)
  \/ exists e success fields,
       fetched t c0 = (Ok (Some e), set_membrane_cache (insert t e) (tick c1))
       /\ last_seen e = clock c0 (ticks c0)
       /\ get_outcome (network c0 (requests c0)) = Ok (Object success fields)
       /\ describes fields e.
Proof.
  intros c1. unfold fetched. fold c1.
  destruct (get_outcome (network c0 (requests c0))) as [[s f|[|x items]| |]|x];
    try (left; reflexivity).
  destruct (empty_object s f); [left; reflexivity|].
  destruct (kw_id f) as [i|] eqn:Hi; [|left; reflexivity].
  destruct (kw_endpoint f) as [ep|] eqn:He; [|left; reflexivity].
  destruct (kw_communication_mode f) as [m|] eqn:Hm; [|left; reflexivity].
  right. eexists _, s, f. split; [reflexivity|]. split; [reflexivity|].
  split; [reflexivity|]. by repeat split.
Qed.

Lemma discover_cases t u c :
  let out := discover t u c in
  (out.1 = Ok None /\ membrane_cache out.2 = membrane_cache c)
  \/ exists e,
       out.1 = Ok (Some e)
       /\ membrane_cache out.2 !! t = Some e
       /\ cache_ttl out.2 = cache_ttl c
       /\ (membrane_cache out.2 = membrane_cache c
           \/ membrane_cache out.2 = <[t := e]> (membrane_cache c)).
Proof.
  intros out. subst out. rewrite discover_run.
  assert (Hf : forall c0,
    membrane_cache c0 = membrane_cache c -> cache_ttl c0 = cache_ttl c ->
    (fetched t c0).1 = Ok None
      /\ membrane_cache (fetched t c0).2 = membrane_cache c
    \/ exists e,
         (fetched t c0).1 = Ok (Some e)
         /\ membrane_cache (fetched t c0).2 !! t = Some e
         /\ cache_ttl (fetched t c0).2 = cache_ttl c
         /\ (membrane_cache (fetched t c0).2 = membrane_cache c
             \/ membrane_cache (fetched t c0).2 = <[t := e]> (membrane_cache c))).
  { intros c0 Hc Ht.
    destruct (fetched_cases t c0) as [->|(e & s & f & -> & _)].
    - left. split; [reflexivity|]. rewrite snd_pair. exact Hc.
    - right. exists e. rewrite snd_pair. cbn [fst].
      unfold got. cbn [membrane_cache cache_ttl set_membrane_cache tick
                       next_request record_event].
      rewrite Hc, Ht, lookup_insert_eq. repeat split. by right. }
  destruct u; cbn [bool_decide]; [|by apply Hf].
  destruct (membrane_cache c !! t) as [cached|] eqn:Hc; [|by apply Hf].
  case_bool_decide; [|by apply Hf].
  right. exists cached. repeat split; try done. by left.
Qed.

(** [discover] never raises.  When it finds nothing (unknown id, registry
    unreachable, malformed reply) the cache is exactly as before; when it
    returns an endpoint, that endpoint is what the cache holds for the
    requested id afterwards, and no other entry of the cache has changed. *)
Theorem discover_and_cache t u c :
  exists found,
    (discover t u c).1 = Ok found
    /\ match found with
       | None => membrane_cache (discover t u c).2 = membrane_cache c
       | Some e =>
           membrane_cache (discover t u c).2 !! t = Some e
           /\ forall k, k <> t ->
                membrane_cache (discover t u c).2 !! k = membrane_cache c !! k
       end.
Proof.
  destruct (discover_cases t u c) as [[-> H]|(e & -> & H1 & _ & H2)].
  - by exists None.
  - exists (Some e). repeat split; [done|]. intros k Hk.
    destruct H2 as [-> | ->]; [done|]. by rewrite lookup_insert_ne.
Qed.

(** Cache time to live.  After a [discover] that returned an endpoint, a
    cached [discover] of the same id made while the clock is less than
    [cache_ttl] past the endpoint's [last_seen] returns that endpoint without
    any request to the registry; once the clock is [cache_ttl] or more past
    it, or when the cache is not to be used, the registry is asked again. *)
Theorem discover_again_within_ttl t u c e :
  (discover t u c).1 = Ok (Some e) ->
  let c' := (discover t u c).2 in
  let age := clock c' (ticks c') - last_seen e in
  (age < cache_ttl c ->
     discover t true c' = (Ok (Some e), tick c')
     /\ requests (discover t true c').2 = requests c'
     /\ new_events c' (discover t true c').2 = [])
  /\ (cache_ttl c <= age ->
      requests (discover t true c').2 = S (requests c'))
  /\ requests (discover t false c').2 = S (requests c').
Proof.
  intros Hd c' age.
  destruct (discover_cases t u c) as [[H _]|(e' & H & Hc & Ht & _)];
    [congruence|].
  rewrite Hd in H. injection H as <-. fold c' in Hc, Ht.
  assert (Hreq : forall c0, requests (fetched t c0).2 = S (requests c0)).
  { intros c0. destruct (fetched_cases t c0) as [->|(e0 & s & f & -> & _)];
      reflexivity. }
  rewrite !discover_run, Hc, Ht. fold age. cbv iota.
  repeat split.
  - rewrite bool_decide_eq_true_2 by done. reflexivity.
  - rewrite bool_decide_eq_true_2 by done. reflexivity.
  - rewrite bool_decide_eq_true_2 by done. apply client_new_events_app.
    rewrite snd_pair, c_trace_tick. by rewrite app_nil_r.
  - intros Hold. rewrite bool_decide_eq_false_2 by lia.
    rewrite Hreq. reflexivity.
  - apply Hreq.
Qed.

Lemma discover_again_within_ttl_witness :
  requests (discover "m2" false (discover "m2" true answered).2).2
  = S (requests (discover "m2" true answered).2).
Proof.
  refine (proj2 (proj2
    (discover_again_within_ttl "m2" true answered m2_endpoint _))).
  reflexivity.
Defined.

(** ** Sending *)

Lemma send_shared_volume_run e msg c :
  _send_shared_volume e msg c
  = if disk_ok c then
      (Ok true,
       record_event
         (WriteMessage
            (endpoint e +:+ "/msg_" +:+ membrane_id c +:+ "_"
             +:+ pretty (clock c (ticks c) * 1000) +:+ ".json")
            (membrane_id c) (clock c (S (ticks c))) msg)
         (tick (tick (record_event (MakeDirs (endpoint e)) c))))
    else (Ok false, c).
Proof.
  unfold _send_shared_volume, try_except, bind, gets, emit, modify, time_time,
    ret, raise.
  cbn [fst snd disk_ok]. by destruct (disk_ok c).
Qed.

Lemma send_network_run e msg c :
  _send_network e msg c
  = (Ok match network c (requests c) with
        | Http status _ => bool_decide (status = 200)
        | Fails _ => false
        end,
     next_request
       (record_event
          (PostMessage (endpoint e +:+ "/message") (membrane_id c)
             (clock c (ticks c)) msg)
          (tick c))).
Proof.
  unfold _send_network, try_except, bind, gets, emit, modify, time_time,
    urlopen, ret, raise.
  cbn [fst snd network requests record_event tick].
  destruct (network c (requests c)) as [x|status doc]; [reflexivity|].
  case_bool_decide as Hr; [reflexivity|].
  cbn [fst snd]. rewrite bool_decide_eq_false_2 by lia. reflexivity.
Qed.

Lemma send_message_run t msg c :
  send_message t msg c
  = match discover t true c with
    | (Ok (Some target), c1) =>
        if bool_decide (communication_mode target = "shared-volume") then
          _send_shared_volume target msg c1
        else if bool_decide (communication_mode target = "network") then
          _send_network target msg c1
        else (Ok false, c1)
    | (_, c1) => (Ok false, c1)
    end.
Proof.
  unfold send_message, try_except, bind at 1.
  destruct (discover t true c) as [[[target|]|x] c1]; try reflexivity.
  repeat case_bool_decide; try reflexivity.
  - rewrite send_shared_volume_run. by destruct (disk_ok c1).
  - by rewrite send_network_run.
Qed.

(** [send_message] to a target that is fresh in the cache asks the registry
    nothing and goes by the target's mode.  Shared volume, on a disk that
    takes the write: the directory of the target's endpoint is made and one
    file is written there, named after the sender and the clock in
    milliseconds, holding sender, timestamp and payload; the call returns
    [True].  Network: one POST to [<endpoint>/message]; the call returns
    [True] exactly when the reply has status 200.  Any other mode, [ipc]
    included: [False], and nothing is written or sent. *)
Theorem send_to_cached_target t msg c e :
  fresh_in_cache c t e ->
  let out := send_message t msg c in
  let mid := membrane_id c in
  let n := ticks c in
  (communication_mode e = "shared-volume" -> disk_ok c = true ->
     out.1 = Ok true
     /\ new_events c out.2
        = [MakeDirs (endpoint e);
           WriteMessage
             (endpoint e +:+ "/msg_" +:+ mid +:+ "_"
              +:+ pretty (clock c (S n) * 1000) +:+ ".json")
             mid (clock c (S (S n))) msg])
  /\ (communication_mode e = "network" ->
      out.1 = Ok match network c (requests c) with
                 | Http status _ => bool_decide (status = 200)
                 | Fails _ => false
                 end
      /\ new_events c out.2
         = [PostMessage (endpoint e +:+ "/message") mid (clock c (S n)) msg])
  /\ (communication_mode e <> "shared-volume" ->
      communication_mode e <> "network" ->
      out.1 = Ok false /\ new_events c out.2 = []).
Proof.
  intros [Hc Hf] out mid n. subst out mid n.
  rewrite send_message_run, discover_run, Hc.
  rewrite bool_decide_eq_true_2 by done.
  repeat split.
  - rewrite bool_decide_eq_true_2 by done.
    rewrite send_shared_volume_run.
    change (disk_ok (tick c)) with (disk_ok c). by rewrite H0.
  - rewrite bool_decide_eq_true_2 by done.
    rewrite send_shared_volume_run.
    change (disk_ok (tick c)) with (disk_ok c). rewrite H0.
    apply client_new_events_app. cfields. by rewrite <- app_assoc.
  - rewrite bool_decide_eq_false_2 by (rewrite H; discriminate).
    rewrite bool_decide_eq_true_2 by done.
    by rewrite send_network_run.
  - rewrite bool_decide_eq_false_2 by (rewrite H; discriminate).
    rewrite bool_decide_eq_true_2 by done.
    rewrite send_network_run. apply client_new_events_app. by cfields.
  - by rewrite !bool_decide_eq_false_2 by done.
  - rewrite !bool_decide_eq_false_2 by done.
    apply client_new_events_app. cfields. by rewrite app_nil_r.
Qed.

Lemma send_to_cached_target_witness :
  (send_message "m2" (JStr "hello") (discover "m2" true answered).2).1 = Ok true.
Proof.
  refine (proj1 (proj1
    (send_to_cached_target "m2" (JStr "hello") (discover "m2" true answered).2
       m2_endpoint _) _ _)).
  - split; [reflexivity|]. vm_compute. reflexivity.
  - reflexivity.
  - reflexivity.
Defined.

Lemma fetched_trace t c0 :
  trace (fetched t c0).2
  = trace c0 ++ [Get (registry_url c0 +:+ ("/discover/" +:+ t))].
Proof.
  destruct (fetched_cases t c0) as [->|(e & s & f & -> & _)]; reflexivity.
Qed.

Lemma discover_trace t u c :
  exists evs, trace (discover t u c).2 = trace c ++ evs.
Proof.
  rewrite discover_run.
  destruct (if u then membrane_cache c !! t else None) as [cached|].
  - case_bool_decide.
    + exists []. by rewrite app_nil_r.
    + eexists. rewrite fetched_trace. reflexivity.
  - eexists. apply fetched_trace.
Qed.

(** [send_message] never raises, and what it does is settled by what
    [discover] finds for the target.  Nothing found (unknown target,
    registry unreachable, malformed reply): [False], and nothing is written
    or sent.  A shared-volume target: on a disk that takes the write, the
    directory of its endpoint is made, one message file is written there and
    the call returns [True]; on a disk that does not, [False] and no message
    is written.  A network target: one POST to [<endpoint>/message], and [True]
    exactly when the reply has status 200.  Any other mode: [False], and
    nothing is written or sent. *)
Theorem send_message_outcome t msg c :
  let d := discover t true c in
  let c1 := d.2 in
  let out := send_message t msg c in
  let mid := membrane_id c1 in
  let n := ticks c1 in
  (exists delivered, out.1 = Ok delivered)
  /\ match d.1 with
     | Ok (Some e) =>
         (communication_mode e = "shared-volume" ->
            out.1 = Ok (disk_ok c1)
            /\ if disk_ok c1 then
                 new_events c1 out.2
                 = [MakeDirs (endpoint e);
                    WriteMessage
                      (endpoint e +:+ "/msg_" +:+ mid +:+ "_"
                       +:+ pretty (clock c1 n * 1000) +:+ ".json")
                      mid (clock c1 (S n)) msg]
               else Forall (fun ev => ~ delivery ev) (new_events c1 out.2))
         /\ (communication_mode e = "network" ->
             out.1 = Ok match network c1 (requests c1) with
                        | Http status _ => bool_decide (status = 200)
                        | Fails _ => false
                        end
             /\ new_events c1 out.2
                = [PostMessage (endpoint e +:+ "/message") mid (clock c1 n) msg])
         /\ (communication_mode e <> "shared-volume" ->
             communication_mode e <> "network" ->
             out = (Ok false, c1))
     | _ => out = (Ok false, c1)
     end.
Proof.
  intros d c1 out mid n. subst d c1 out mid n.
  rewrite send_message_run.
  destruct (discover t true c) as [[[e|]|x] c1]; cbn [fst snd];
    try (split; [by eexists|reflexivity]).
  split.
  - repeat case_bool_decide; rewrite ?send_shared_volume_run, ?send_network_run;
      try destruct (disk_ok c1); by eexists.
  - split; [|split].
    + intros Hm. rewrite bool_decide_eq_true_2 by done.
      rewrite send_shared_volume_run.
      destruct (disk_ok c1); cbn [fst snd]; (split; [reflexivity|]).
      * apply client_new_events_app. cfields. by rewrite <- app_assoc.
      * rewrite (client_new_events_app c1 c1 []) by (by rewrite app_nil_r).
        constructor.
    + intros Hm.
      rewrite bool_decide_eq_false_2 by (rewrite Hm; discriminate).
      rewrite bool_decide_eq_true_2 by done.
      rewrite send_network_run. cbn [fst snd]. split; [reflexivity|].
      apply client_new_events_app. by cfields.
    + intros H1 H2. by rewrite !bool_decide_eq_false_2 by done.
Qed.

(** ** Listing *)

Lemma collect_run items acc c :
  match (collect items acc c).1 with
  | Ok l =>
      exists new,
        l = acc ++ new
        /\ Forall2 describes items new
        /\ (forall e, e ∈ new ->
              exists e', e' ∈ new /\ id e' = id e
                /\ membrane_cache (collect items acc c).2 !! id e = Some e')
        /\ (forall k, (forall e, e ∈ new -> id e <> k) ->
              membrane_cache (collect items acc c).2 !! k
              = membrane_cache c !! k)
  | Raise x => x = KeyError
  end.
Proof.
  revert acc c. induction items as [|item rest IH]; intros acc c.
  - cbn. exists []. rewrite app_nil_r. repeat split; try done.
    + intros e He. by apply elem_of_nil in He.
  - assert (Hstep : collect (item :: rest) acc c
             = match endpoint_of item c with
               | (Ok e0, c1) =>
                   collect rest (acc ++ [e0])
                     (set_membrane_cache (insert (id e0) e0) c1)
               | (Raise x, c1) => (Raise x, c1)
               end).
    { cbn [collect]. unfold bind at 1.
      by destruct (endpoint_of item c) as [[e0|x] c1]. }
    rewrite Hstep, endpoint_of_run. clear Hstep.
    destruct (kw_id item) as [i|] eqn:Hi; [|done].
    destruct (kw_endpoint item) as [ep|] eqn:He; [|done].
    destruct (kw_communication_mode item) as [m|] eqn:Hm; [|done].
    set (e0 := {| id := i; endpoint := ep; communication_mode := m;
                  metadata := default [] (kw_metadata item);
                  last_seen := clock c (ticks c) |}).
    set (c2 := set_membrane_cache (insert (id e0) e0) (tick c)).
    specialize (IH (acc ++ [e0]) c2).
    destruct (collect rest (acc ++ [e0]) c2) as [[l|x] c3]; cbn [fst snd] in *;
      [|done].
    destruct IH as (new & -> & Hd & Hc & Hframe).
    exists (e0 :: new). split; [by rewrite <- app_assoc|].
    split; [constructor; [by repeat split|done]|].
    split.
    + intros e [->|Hin]%elem_of_cons.
      * destruct (decide (Exists (fun e' => id e' = id e0) new)) as [Hex|Hno].
        -- apply Exists_exists in Hex as (e1 & Hin1 & Hid1).
           destruct (Hc e1 Hin1) as (e' & Hin' & Hid' & Hlook).
           exists e'. split; [by right|]. split; [congruence|].
           by rewrite <- Hid1.
        -- exists e0. split; [by left|]. split; [done|].
           rewrite Hframe.
           ++ subst c2. cbn [membrane_cache set_membrane_cache tick].
              apply lookup_insert_eq.
           ++ intros e1 Hin1 Heq. apply Hno, Exists_exists. by exists e1.
      * destruct (Hc e Hin) as (e' & Hin' & Hid' & Hlook).
        exists e'. split; [by right|]. done.
    + intros k Hk. rewrite Hframe.
      * subst c2. cbn [membrane_cache set_membrane_cache tick].
        apply lookup_insert_ne. apply Hk. by left.
      * intros e1 Hin1. apply Hk. by right.
Qed.

Lemma collect_frame items acc c :
  trace (collect items acc c).2 = trace c
  /\ requests (collect items acc c).2 = requests c
  /\ match (collect items acc c).1 with
     | Ok _ => forallb usable items = true
     | Raise _ => forallb usable items = false
     end.
Proof.
  revert acc c. induction items as [|item rest IH]; intros acc c; [done|].
  assert (Hstep : collect (item :: rest) acc c
           = match endpoint_of item c with
             | (Ok e0, c1) =>
                 collect rest (acc ++ [e0])
                   (set_membrane_cache (insert (id e0) e0) c1)
             | (Raise x, c1) => (Raise x, c1)
             end).
  { cbn [collect]. unfold bind at 1.
    by destruct (endpoint_of item c) as [[e0|x] c1]. }
  rewrite Hstep, endpoint_of_run. clear Hstep.
  change (forallb usable (item :: rest))
    with (match kw_id item, kw_endpoint item, kw_communication_mode item with
          | Some _, Some _, Some _ => true
          | _, _, _ => false
          end && forallb usable rest).
  destruct (kw_id item) as [i|]; [|done].
  destruct (kw_endpoint item) as [ep|]; [|done].
  destruct (kw_communication_mode item) as [m|]; [|done].
  cbn [andb].
  match goal with
  | |- context [collect rest ?a ?c0] =>
      destruct (IH a c0) as (-> & -> & H)
  end.
  by cfields.
Qed.

Lemma client_list_membranes_run urlencode p m c :
  let url := list_path urlencode p m in
  list_membranes urlencode p m c
  = match get_outcome (network c (requests c)) with
    | Ok (Array items) =>
        match collect items [] (got url c) with
        | (Ok l, c3) => (Ok l, c3)
        | (Raise _, c3) => (Ok [], c3)
        end
    | _ => (Ok [], got url c)
    end.
Proof.
  unfold list_membranes, list_path. cbv zeta.
  set (url := if bool_decide (_ = "") then _ else _).
  unfold try_except, bind at 1. rewrite get_run.
  destruct (get_outcome (network c (requests c))) as [[s f|items| |]|x];
    try reflexivity.
  by destruct (empty_object s f).
Qed.

(** The client's [list_membranes] never raises and makes exactly one
    request, a GET of [/list] with the filters as its query.  When the reply
    is an array in which every record has [id], [endpoint] and
    [communication_mode], it returns one endpoint per record, in order and
    built from that record; in every other case (a failed request, a reply
    that is no array, a record that lacks one of the three keys) it returns
    the empty list.  Every endpoint it returns is in the cache afterwards
    under its own id (when two returned records share an id, one of the
    returned endpoints with that id). *)
Theorem list_membranes_refreshes_cache urlencode p m c :
  let out := list_membranes urlencode p m c in
  exists l,
    out.1 = Ok l
    /\ new_events c out.2 = [Get (registry_url c +:+ list_path urlencode p m)]
    /\ requests out.2 = S (requests c)
    /\ match get_outcome (network c (requests c)) with
       | Ok (Array items) =>
           if forallb usable items then Forall2 describes items l else l = []
       | _ => l = []
       end
    /\ (forall e, e ∈ l ->
          exists e', e' ∈ l /\ id e' = id e
            /\ membrane_cache out.2 !! id e = Some e').
Proof.
  intros out. subst out.
  rewrite client_list_membranes_run. cbv zeta.
  set (url := list_path urlencode p m).
  assert (Hgot : new_events c (got url c) = [Get (registry_url c +:+ url)]
                 /\ requests (got url c) = S (requests c)).
  { split; [|reflexivity]. apply client_new_events_app. unfold got. by cfields. }
  assert (Hnil : forall c' : NamespaceClient,
    (forall e, e ∈ @nil MembraneEndpoint ->
       exists e', e' ∈ @nil MembraneEndpoint /\ id e' = id e
         /\ membrane_cache c' !! id e = Some e')).
  { intros c' e He. by apply elem_of_nil in He. }
  destruct (get_outcome (network c (requests c))) as [[s f|items| |]|x];
    try (exists []; cbn [fst snd]; destruct Hgot;
         repeat split; (done || apply Hnil)).
  pose proof (collect_run items [] (got url c)) as H.
  destruct (collect_frame items [] (got url c)) as (Ht & Hq & Hok).
  assert (Hev : new_events c (collect items [] (got url c)).2
                = [Get (registry_url c +:+ url)]).
  { apply client_new_events_app. rewrite Ht. unfold got. by cfields. }
  destruct (collect items [] (got url c)) as [[l|x] c3]; cbn [fst snd] in *.
  - destruct H as (new & -> & Hd & Hc & _). exists new. rewrite Hok.
    repeat split; done.
  - exists []. rewrite Hok. repeat split; try done. apply Hnil.
Qed.

(** ** Registration and the heartbeat thread *)

(** [register] never raises and returns the [success] of the reply ([False]
    on any failure).  It raises the heartbeat flag exactly when the
    registration succeeded and [auto_heartbeat] is on, and it starts a thread
    only when the flag was down before: registering again while the heartbeat
    runs starts no second thread, and a failed registration starts none. *)
Theorem register_starts_heartbeat hash p e mode md c :
  let out := register hash p e mode md c in
  let success := or_false (post_outcome (network c (requests c))) in
  out.1 = Ok success
  /\ heartbeat_running out.2
     = heartbeat_running c || (success && auto_heartbeat c)
  /\ (StartThread ∈ new_events c out.2
      <-> success = true /\ auto_heartbeat c = true
          /\ heartbeat_running c = false).
Proof.
  intros out success. subst out. rewrite register_run, snd_pair. cbn [fst].
  fold success.
  destruct (posted_fields "/register" (registration_data hash c p e mode md)
              (tick (tick c))) as (Hr & _ & _ & Htr).
  set (c1 := posted _ _ _) in *.
  autorewrite with cproj in Hr, Htr.
  split; [done|].
  assert (Hno : new_events c c1
                = [Post (registry_url c +:+ "/register")
                     (registration_data hash c p e mode md)])
    by (by apply client_new_events_app).
  assert (Hpost : ~ StartThread ∈ new_events c c1).
  { rewrite Hno. intros H. apply list_elem_of_singleton in H. discriminate. }
  destruct success, (auto_heartbeat c); cbn [andb];
    rewrite ?orb_false_r, ?orb_true_r; try (split; [done|]; split; [done|]).
  all: try (intros (? & ? & ?); discriminate).
  unfold started. rewrite Hr.
  destruct (heartbeat_running c) eqn:Hrun.
  - split; [done|]. split; [done|]. intros (_ & _ & ?). discriminate.
  - split; [reflexivity|]. split; [done|]. intros _.
    erewrite client_new_events_app;
      [|cfields; rewrite Htr, <- !app_assoc; reflexivity].
    cbn [app]. do 2 apply list_elem_of_further. apply list_elem_of_here.
Qed.

(** ** The heartbeat loop again *)

Lemma heartbeat_pass_fields c :
  let c1 := (_heartbeat_pass c).2 in
  heartbeat_running c1 = heartbeat_running c
  /\ heartbeat_interval c1 = heartbeat_interval c
  /\ registry_url c1 = registry_url c
  /\ membrane_id c1 = membrane_id c
  /\ requests c1 = S (requests c)
  /\ trace c1
     = trace c ++ [Post (registry_url c +:+ "/heartbeat") (id_only (membrane_id c));
                   Sleep (if heartbeat_interval c <? 0 then 5
                          else heartbeat_interval c)].
Proof.
  rewrite heartbeat_pass_run, snd_pair. unfold posted. cfields.
  rewrite <- app_assoc. repeat split; reflexivity.
Qed.

Lemma heartbeat_worker_run fuel c :
  heartbeat_running c = true ->
  let c' := (_heartbeat_worker fuel c).2 in
  (_heartbeat_worker fuel c).1 = Ok tt
  /\ requests c' = (requests c + fuel)%nat
  /\ trace c'
     = trace c
       ++ mjoin (replicate fuel
                  [Post (registry_url c +:+ "/heartbeat") (id_only (membrane_id c));
                   Sleep (if heartbeat_interval c <? 0 then 5
                          else heartbeat_interval c)]).
Proof.
  revert c. induction fuel as [|fuel IH]; intros c Hrun.
  - cbn. rewrite app_nil_r. split; [done|]. split; [lia|done].
  - assert (Hstep : _heartbeat_worker (S fuel) c
                    = _heartbeat_worker fuel (_heartbeat_pass c).2).
    { cbn [_heartbeat_worker]. unfold bind at 1, gets at 1. rewrite Hrun.
      unfold bind. by rewrite heartbeat_pass_run. }
    cbv zeta. rewrite Hstep.
    destruct (heartbeat_pass_fields c) as (Hr & Hi & Hu & Hm & Hq & Ht).
    destruct (IH (_heartbeat_pass c).2) as (H1 & H2 & H3); [congruence|].
    rewrite H1, H2, H3, Hi, Hu, Hm, Hq, Ht.
    split; [done|]. split; [lia|].
    cbn [replicate mjoin list_join]. by rewrite <- app_assoc.
Qed.

(** While [heartbeat_running] is up, every pass of the worker loop posts one
    heartbeat and then sleeps, whether the post succeeded or not: [n] passes
    make exactly [n] requests, and the loop itself never raises, so a
    registry that fails or cannot be reached never stops it. *)
Theorem heartbeat_worker_keeps_going fuel c :
  heartbeat_running c = true ->
  0 <= heartbeat_interval c ->
  let c' := (_heartbeat_worker fuel c).2 in
  (_heartbeat_worker fuel c).1 = Ok tt
  /\ heartbeat_running c' = true
  /\ requests c' = (requests c + fuel)%nat
  /\ new_events c c'
     = mjoin (replicate fuel
                [Post (registry_url c +:+ "/heartbeat") (id_only (membrane_id c));
                 Sleep (heartbeat_interval c)]).
Proof.
  intros Hrun Hi c'.
  destruct (heartbeat_worker_run fuel c Hrun) as (H1 & H2 & H3).
  fold c' in H2, H3. split; [done|].
  split; [subst c'; by rewrite keeps_heartbeat_worker|].
  split; [done|]. apply client_new_events_app. rewrite H3.
  destruct (Z.ltb_spec (heartbeat_interval c) 0); [lia|done].
Qed.

Lemma heartbeat_worker_keeps_going_witness :
  requests (_heartbeat_worker 3 (started unreachable)).2
  = (requests (started unreachable) + 3)%nat.
Proof.
  refine (proj1 (proj2 (proj2
    (heartbeat_worker_keeps_going 3 (started unreachable) _ _)))).
  - reflexivity.
  - vm_compute. discriminate.
Defined.

(** ** Clients without a configured id *)

(** A client made by [create_namespace_client] with no id in the call, none
    in [MEMBRANE_ID] (unset or empty) and none in the configuration file
    registers under the id ["unknown"].  Two such clients therefore share
    one record at the registry: after both have registered, the table holds
    under ["unknown"] only what the second one sent. *)
Theorem unconfigured_clients_share_a_record hash environ network1 network2
    clock1 clock2 p1 e1 mode1 md1 p2 e2 mode2 md2 r :
  (environ !! "MEMBRANE_ID" = None \/ environ !! "MEMBRANE_ID" = Some "") ->
  let c1 := create_namespace_client environ NoConfig None None network1 true clock1 in
  let c2 := create_namespace_client environ (Config None) None None network2 true clock2 in
  let b1 := registration_data hash c1 p1 e1 mode1 md1 in
  let b2 := registration_data hash c2 p2 e2 mode2 md2 in
  kw_id b1 = Some "unknown" /\ kw_id b2 = Some "unknown"
  /\ exists m2,
       Registry.MembraneInfo_init b2 = Ok m2
       /\ Registry.membranes
            (Registry._handle_register (Registry.Fields b2)
               (Registry._handle_register (Registry.Fields b1) r).2).2
          = <["unknown" := Registry.stamped (Registry.clock r)
                             (S (S (S (Registry.ticks r)))) m2]>
              (Registry.membranes r).
Proof.
  intros Henv c1 c2 b1 b2.
  assert (Hid1 : membrane_id c1 = "unknown").
  { subst c1. unfold create_namespace_client. by destruct Henv as [-> | ->]. }
  assert (Hid2 : membrane_id c2 = "unknown").
  { subst c2. unfold create_namespace_client. by destruct Henv as [-> | ->]. }
  split; [subst b1; cbn [kw_id registration_data]; by rewrite Hid1|].
  split; [subst b2; cbn [kw_id registration_data]; by rewrite Hid2|].
  destruct (registration_data_accepted hash c1 p1 e1 mode1 md1)
    as (m1 & Hm1 & Hi1 & _).
  destruct (registration_data_accepted hash c2 p2 e2 mode2 md2)
    as (m2 & Hm2 & Hi2 & _).
  fold b1 in Hm1. fold b2 in Hm2. exists m2. split; [done|].
  rewrite !RegistryFacts.handle_register_run by discriminate.
  unfold Registry.accepted.
  rewrite Hm1, Hm2, !snd_pair.
  destruct (RegistryFacts.register_membrane_fields m2
              (Registry.register_membrane m1 r).2)
    as (-> & _).
  destruct (RegistryFacts.register_membrane_fields m1 r)
    as (-> & _ & _ & -> & -> & _).
  rewrite Hi1, Hi2, Hid1, Hid2. apply insert_insert_eq.
Qed.

Lemma unconfigured_clients_share_a_record_witness :
  kw_id (registration_data hash_of_run_a
           (create_namespace_client ∅ NoConfig None None
              (fun _ => Fails URLError) true (fun n => 100 + Z.of_nat n))
           None None "network" None)
  = Some "unknown".
Proof.
  refine (proj1 (unconfigured_clients_share_a_record hash_of_run_a ∅
                   (fun _ => Fails URLError) (fun _ => Fails URLError)
                   (fun n => 100 + Z.of_nat n) (fun n => 200 + Z.of_nat n)
                   None None "network" None None None "ipc" None
                   Registry.fresh _)).
  left. reflexivity.
Defined.

End ClientFacts.
